(** * MMT010 grid automation: a shallow embedding of [mmt010_automation.py]

    The development embeds the grid operations of [MMT010Automation]
    (src/mmt010_automation.py) together with [TestData.to_dict]
    (src/data_manager.py) and the default [WebConfig] (src/config.py).

    - Python [await]-ed calls become computations in a state, exception and
      output monad [M]: the state is the browser page as the driver sees it,
      the exception is a Python [Exception], the output is the sequence of
      log records and [asyncio.sleep] calls the code performs.
    - The Playwright driver is an interface ([Driver]); the operations are
      proved correct for every implementation of it, including ones whose
      calls raise.  A concrete implementation over a static element tree
      ([StaticPage]) follows Playwright's documented locator semantics and
      serves for the statements about row resolution and for examples.
    - [success_count / len(data_dict)] is Python's true division on binary64
      floats and is embedded with the primitive floats. *)

From Stdlib Require Import Ascii String ZArith QArith Floats.
From stdpp Require Import base option list gmap strings pretty.

Local Open Scope Z_scope.

(** ** Python values and exceptions *)

(** The exceptions that [except Exception] catches in the embedded code.
    Playwright raises [Error] and its subclass [TimeoutError]; the arithmetic
    of the operations can raise [ZeroDivisionError].  (Task cancellation and
    keyboard interrupts derive from [BaseException] and are outside the
    sequential model.) *)
Inductive Exn : Type :=
  | PlaywrightError (msg : string)
  | PlaywrightTimeoutError (msg : string)
  | ZeroDivisionError.

(** [str(e)] *)
Definition exn_str (e : Exn) : string :=
  match e with
  | PlaywrightError msg => msg
  | PlaywrightTimeoutError msg => msg
  | ZeroDivisionError => "division by zero"
  end.

Inductive Res (A : Type) : Type :=
  | Ok (a : A)
  | Raise (e : Exn).
Arguments Ok {A} a.
Arguments Raise {A} e.

Definition is_ok {A} (r : Res A) : bool :=
  match r with Ok _ => true | Raise _ => false end.

(** A Python number that is either an [int] or a [float]
    (the batch success rate is [0] for an empty list). *)
Inductive PyNum : Type :=
  | PyInt (z : Z)
  | PyFloat (f : float).

(** [float(z)] for an integer below 2^63 in magnitude. *)
Definition float_of_Z (z : Z) : float :=
  if z <? 0 then PrimFloat.opp (PrimFloat.of_uint63 (Uint63.of_Z (- z)))
  else PrimFloat.of_uint63 (Uint63.of_Z z).

(** [a / b] on two Python ints: true division, [ZeroDivisionError] when the
    divisor is 0.  For operands below 2^53 in magnitude (every count in this
    program) the quotient of the two converted floats is the correctly
    rounded quotient Python returns. *)
Definition py_truediv (a b : Z) : Res float :=
  if b =? 0 then Raise ZeroDivisionError
  else Ok (PrimFloat.div (float_of_Z a) (float_of_Z b)).

(** The literal [0.8]: the binary64 value nearest to 8/10. *)
Definition threshold : float := 0x1.999999999999ap-1%float.

(** [x >= y] on floats *)
Definition float_ge (x y : float) : bool := PrimFloat.leb y x.

(** ** data_manager.py: [TestData] *)

Record TestData : Type := mkTestData {
  料號 : string;
  站位 : string;
  版本 : string;
  描述 : string;
  MFGID群組 : string
}.

(** [TestData.to_dict]: a dict literal; iteration follows insertion order,
    so the dict is embedded as the ordered list of its items. *)
Definition to_dict (self : TestData) : list (string * string) :=
  [ ("料號", 料號 self);
    ("站位", 站位 self);
    ("版本", 版本 self);
    ("描述", 描述 self);
    ("MFGID群組", MFGID群組 self) ].

(** ** Playwright locators

    A locator is a description of how to find elements; it is resolved
    against the page each time an action or query is awaited on it. *)
Inductive Locator : Type :=
  | page_locator (selector : string)                 (* page.locator(sel) *)
  | sub_locator (parent : Locator) (selector : string) (* loc.locator(sel) *)
  | nth (parent : Locator) (index : Z)               (* loc.nth(i) *)
  | first (parent : Locator)                         (* loc.first *)
  | filter_has_text (parent : Locator) (text : string). (* loc.filter(has_text=s) *)

(** ** Log records and the output of an operation *)

Inductive Level : Type := INFO | WARNING | ERROR.

(** [Union[int, str]] row identifier *)
Inductive RowIdentifier : Type :=
  | RowInt (n : Z)
  | RowStr (s : string).

(** One constructor per message template of the embedded functions, with the
    values interpolated into it. *)
Inductive LogMsg : Type :=
  (* wait_for_grid_ready *)
  | MsgGridWaiting
  | MsgGridReady
  | MsgGridWaitFailed (e : Exn)
  (* get_grid_info *)
  | MsgGridInfo (row_count : Z) (n_headers : Z)
  | MsgGridInfoFailed (e : Exn)
  (* find_grid_row *)
  | MsgFindRowByIndex (n : Z)
  | MsgRowIndexMissing (n : Z)
  | MsgFindRowByText (s : string)
  | MsgRowTextMissing (s : string)
  | MsgFindRowError (e : Exn)
  (* fill_single_cell *)
  | MsgUnknownColumn (column_name : string)
  | MsgFilling (column_name : string) (col_index : Z) (value : string)
  | MsgCellMissing (child : Z)
  | MsgEditorMissing (column_name : string)
  | MsgFilled (column_name : string)
  | MsgFillError (e : Exn)
  (* add_new_test_data *)
  | MsgAddStart
  | MsgAddButtonFound
  | MsgAddButtonMissing
  | MsgNoDataRows
  | MsgAddDone (success_count : Z) (n_fields : Z)
  | MsgAddPartial (success_count : Z) (n_fields : Z)
  | MsgAddFailed (e : Exn)
  (* edit_test_data *)
  | MsgEditStart (r : RowIdentifier)
  | MsgRowNotFound (r : RowIdentifier)
  | MsgEditField (field_name : string)
  | MsgEditFieldFailed (field_name : string)
  | MsgEditDone (success_count : Z) (n_fields : Z)
  | MsgEditPartial (success_count : Z) (n_fields : Z)
  | MsgEditNone
  | MsgEditFailed (e : Exn)
  (* delete_test_data *)
  | MsgDeleteStart (r : RowIdentifier)
  | MsgDeleteClicked
  | MsgDeleteConfirmed
  | MsgDeleteButtonMissing
  | MsgDeleteFailed (e : Exn)
  (* view_test_data *)
  | MsgViewStart
  | MsgViewEmpty
  | MsgViewRowFailed (row : Z) (e : Exn)
  | MsgViewDone (row_count : Z)
  | MsgViewFailed (e : Exn)
  (* batch_add_test_data *)
  | MsgBatchStart (n : Z)
  | MsgBatchItem (i : Z) (n : Z)
  | MsgBatchDone (success_count : Z) (n : Z)
  | MsgBatchFailed (e : Exn).

(** What an operation does besides talking to the driver: it writes log
    records and it sleeps ([asyncio.sleep], in seconds). *)
Inductive Event : Type :=
  | EvLog (lvl : Level) (m : LogMsg)
  | EvSleep (seconds : Q).

(** The double quote character, for selectors that contain it. *)
Definition dq : string := String "034"%char EmptyString.

(** ** config.py: [WebConfig] *)

Module Config.

Record WebConfig : Type := mkWebConfig {
  element_timeout : Z;                 (* milliseconds *)
  selectors : gmap string string;
  column_mapping : gmap string Z
}.

Definition default_selectors : gmap string string :=
  list_to_map
    [ ("search_button", "#fr_btn_search_MMT010_Index_FormLayout_search_CD");
      ("save_all_button", "#cus_btn_masterdetailsave_CD");
      ("grid_container", "[id$=" +:+ dq +:+ "Setting_GridViewPartial" +:+ dq +:+ "]");
      ("data_row", "tr.dxgvDataRow_DEVMVC");
      ("header_row", "tr.dxgvHeader_DEVMVC");
      ("add_button", "[id$=" +:+ dq +:+ "_DXCBtnNew" +:+ dq +:+ "]");
      ("delete_button", "[id$=" +:+ dq +:+ "_DXCBtnDelete" +:+ dq +:+ "]");
      ("edit_button", "[id$=" +:+ dq +:+ "_DXCBtnEdit" +:+ dq +:+ "]");
      ("password_input", "input[type='password']") ].

Definition default_column_mapping : gmap string Z :=
  list_to_map
    [ ("料號", 1); ("站位", 2); ("版本", 3); ("描述", 4); ("MFGID群組", 5) ].

Definition default_web_config : WebConfig :=
  {| element_timeout := 10000;
     selectors := default_selectors;
     column_mapping := default_column_mapping |}.

End Config.

(** ** The driver interface

    The awaited Playwright calls the operations make.  Each call runs
    against the page state [W], may change it, and returns a value or
    raises. *)
Class Driver (W : Type) : Type := {
  (* await loc.wait_for(state=..., timeout=...) *)
  wait_for : Locator -> string -> Z -> W -> Res unit * W;
  (* await loc.count() *)
  count : Locator -> W -> Res Z * W;
  (* await loc.click() *)
  click : Locator -> W -> Res unit * W;
  (* await loc.dblclick() *)
  dblclick : Locator -> W -> Res unit * W;
  (* await loc.fill(text) *)
  fill : Locator -> string -> W -> Res unit * W;
  (* await loc.press(key) *)
  press : Locator -> string -> W -> Res unit * W;
  (* await loc.text_content() *)
  text_content : Locator -> W -> Res (option string) * W
}.

(** ** The monad of operations *)

Definition M (W A : Type) : Type := W -> Res A * W * list Event.

Definition ret {W A} (a : A) : M W A := fun w => (Ok a, w, []).

Definition bind {W A B} (m : M W A) (k : A -> M W B) : M W B :=
  fun w =>
    match m w with
    | (Ok a, w1, t1) =>
        match k a w1 with (r, w2, t2) => (r, w2, t1 ++ t2) end
    | (Raise e, w1, t1) => (Raise e, w1, t1)
    end.

(** [try: m except Exception as e: h e] (also the bare [except:]) *)
Definition try_except {W A} (m : M W A) (h : Exn -> M W A) : M W A :=
  fun w =>
    match m w with
    | (Ok a, w1, t1) => (Ok a, w1, t1)
    | (Raise e, w1, t1) =>
        match h e w1 with (r, w2, t2) => (r, w2, t1 ++ t2) end
    end.

(** An awaited driver call. *)
Definition call {W A} (op : W -> Res A * W) : M W A :=
  fun w => match op w with (r, w1) => (r, w1, []) end.

(** A value or an exception computed without the driver. *)
Definition lift {W A} (r : Res A) : M W A := fun w => (r, w, []).

(** [self.logger.info/warning/error(...)] *)
Definition log {W} (lvl : Level) (m : LogMsg) : M W unit :=
  fun w => (Ok tt, w, [EvLog lvl m]).

(** [await asyncio.sleep(seconds)] *)
Definition sleep {W} (seconds : Q) : M W unit :=
  fun w => (Ok tt, w, [EvSleep seconds]).

Notation "'let*' x ':=' m 'in' k" := (bind m (fun x => k))
  (at level 10, x binder, m at level 100, k at level 200).

(** A [for] loop over [l] whose body updates the loop-carried variables
    [acc]. *)
Fixpoint for_each {W A B} (l : list A) (acc : B) (body : A -> B -> M W B)
  : M W B :=
  match l with
  | [] => ret acc
  | x :: l' => let* acc' := body x acc in for_each l' acc' body
  end.

(** [range(n)] *)
Definition range (n : Z) : list Z := seqZ 0 n.

(** [enumerate(l, start)] *)
Definition enumerate {A} (start : Z) (l : list A) : list (Z * A) :=
  zip (seqZ start (Z.of_nat (length l))) l.

(** [len(l)] *)
Definition len {A} (l : list A) : Z := Z.of_nat (length l).

(** ** Python strings

    A [str] is held as the bytes of its UTF-8 encoding. *)

(** Whether a byte continues a character (the bytes 10xxxxxx). *)
Definition is_continuation (c : ascii) : bool :=
  let n := Z.of_nat (nat_of_ascii c) in (128 <=? n) && (n <? 192).

(** The characters of a string, each as its bytes: a byte that does not
    continue a character, with the continuation bytes that follow it. *)
Fixpoint chars (l : list ascii) : list (list ascii) :=
  match l with
  | [] => []
  | c :: l' =>
      match chars l' with
      | (c' :: ch) :: rest =>
          if is_continuation c' then (c :: c' :: ch) :: rest
          else [c] :: (c' :: ch) :: rest
      | rest => [c] :: rest
      end
  end.

(** The code point that the bytes of one character encode (the shortest
    encoding only). *)
Definition code_point (ch : list ascii) : option Z :=
  let continues (b : Z) : bool := (128 <=? b) && (b <? 192) in
  match map (fun c => Z.of_nat (nat_of_ascii c)) ch with
  | [b0] => if b0 <? 128 then Some b0 else None
  | [b0; b1] =>
      let c := (b0 - 192) * 64 + (b1 - 128) in
      if (192 <=? b0) && (b0 <? 224) && continues b1 && (128 <=? c)
      then Some c else None
  | [b0; b1; b2] =>
      let c := (b0 - 224) * 4096 + (b1 - 128) * 64 + (b2 - 128) in
      if (224 <=? b0) && (b0 <? 240) && continues b1 && continues b2 &&
         (2048 <=? c)
      then Some c else None
  | [b0; b1; b2; b3] =>
      let c := (b0 - 240) * 262144 + (b1 - 128) * 4096 + (b2 - 128) * 64 +
               (b3 - 128) in
      if (240 <=? b0) && (b0 <? 248) && continues b1 && continues b2 &&
         continues b3 && (65536 <=? c) && (c <=? 1114111)
      then Some c else None
  | _ => None
  end.

(** ** [str.strip()]

    The code points for which [str.isspace] holds, which are those that
    [str.strip()] removes. *)
Definition is_space (c : Z) : bool :=
  bool_decide
    (c ∈ [ 0x09; 0x0a; 0x0b; 0x0c; 0x0d; 0x1c; 0x1d; 0x1e; 0x1f; 0x20;
           0x85; 0xa0; 0x1680;
           0x2000; 0x2001; 0x2002; 0x2003; 0x2004; 0x2005; 0x2006; 0x2007;
           0x2008; 0x2009; 0x200a;
           0x2028; 0x2029; 0x202f; 0x205f; 0x3000 ]).

Definition is_space_char (ch : list ascii) : bool :=
  match code_point ch with
  | Some c => is_space c
  | None => false
  end.

(** What is left of a list after its longest prefix on which [f] holds. *)
Fixpoint drop_while {A} (f : A -> bool) (l : list A) : list A :=
  match l with
  | [] => []
  | x :: l' => if f x then drop_while f l' else l
  end.

(** The same at both ends. *)
Definition trim {A} (f : A -> bool) (l : list A) : list A :=
  rev (drop_while f (rev (drop_while f l))).

Definition strip (s : string) : string :=
  string_of_list_ascii
    (concat (trim is_space_char (chars (list_ascii_of_string s)))).

(** ** mmt010_automation.py: [MMT010Automation] *)

(** The attributes [__init__] sets.  The page handle is the state of the
    monad. *)
Record MMT010Automation : Type := mkMMT010Automation {
  config : Config.WebConfig;
  column_mapping : gmap string Z;
  grid_container : Locator;
  data_rows : Locator;
  header_row : Locator;
  search_button : Locator;
  save_all_button : Locator
}.

(** [MMT010Automation.__init__]; [None] stands for the [KeyError] of a
    selector missing from the configuration. *)
Definition init (cfg : Config.WebConfig) : option MMT010Automation :=
  gc ← Config.selectors cfg !! "grid_container";
  dr ← Config.selectors cfg !! "data_row";
  hr ← Config.selectors cfg !! "header_row";
  sb ← Config.selectors cfg !! "search_button";
  sv ← Config.selectors cfg !! "save_all_button";
  Some {| config := cfg;
          column_mapping := Config.column_mapping cfg;
          grid_container := page_locator gc;
          data_rows := sub_locator (page_locator gc) dr;
          header_row := sub_locator (page_locator gc) hr;
          search_button := page_locator sb;
          save_all_button := page_locator sv |}.

(** The shapes of the dict [get_grid_info] returns. *)
Inductive GridInfo : Type :=
  | GridInfoNotReady (error : string)          (* {"error": ...} *)
  | GridInfoReady (row_count : Z) (headers : list string)
                            (* {"row_count", "headers", "grid_ready": True} *)
  | GridInfoError (error : string).  (* {"error": str(e), "grid_ready": False} *)

(** [grid_info.get("grid_ready", False)] *)
Definition grid_ready (g : GridInfo) : bool :=
  match g with GridInfoReady _ _ => true | _ => false end.

(** The shapes of the dict [view_test_data] returns. *)
Inductive ViewResult : Type :=
  | ViewFailure (error : string)               (* {"success": False, "error"} *)
  | ViewEmpty (headers : list string)
                   (* {"success": True, "row_count": 0, "headers", "data": []} *)
  | ViewData (row_count : Z) (headers : list string) (preview_count : Z)
             (data : list (list string)).

Record BatchDetail : Type := mkBatchDetail {
  index : Z;
  status : string;
  data : list (string * string)
}.

(** The shapes of the dict [batch_add_test_data] returns. *)
Inductive BatchResult : Type :=
  | BatchReport (success : bool) (total success_count failed_count : Z)
                (success_rate : PyNum) (details : list BatchDetail)
  | BatchError (error : string) (total success_count failed_count : Z).
                                                    (* "success": False *)

Section Operations.

Context {W : Type} `{Driver W}.

Local Abbreviation M := (M W).

Definition wait_for_grid_ready (self : MMT010Automation) : M bool :=
  try_except
    (let* _ := log INFO MsgGridWaiting in
     let* _ := call (wait_for (grid_container self) "visible"
                       (Config.element_timeout (config self))) in
     let* _ := sleep 2 in
     let* _ := log INFO MsgGridReady in
     ret true)
    (fun e =>
       let* _ := log ERROR (MsgGridWaitFailed e) in
       ret false).

(** [f"欄位{i+1}"] *)
Definition default_header (i : Z) : string := "欄位" +:+ pretty (i + 1).

Definition get_grid_info (self : MMT010Automation) : M GridInfo :=
  try_except
    (let* ready := wait_for_grid_ready self in
     if negb ready then ret (GridInfoNotReady "表格未準備就緒")
     else
       let* row_count := call (count (data_rows self)) in
       let* n_header_rows := call (count (header_row self)) in
       let* headers :=
         if n_header_rows >? 0 then
           let header_cells := sub_locator (header_row self) "td" in
           let* header_count := call (count header_cells) in
           for_each (range (Z.min header_count 6)) []
             (fun i headers =>
                try_except
                  (let* header_text := call (text_content (nth header_cells i)) in
                   match header_text with
                   | Some (String c s) => ret (headers ++ [strip (String c s)])
                   | _ => ret (headers ++ [default_header i])
                   end)
                  (fun _ => ret (headers ++ [default_header i])))
         else ret [] in
       let* _ := log INFO (MsgGridInfo row_count (len headers)) in
       ret (GridInfoReady row_count headers))
    (fun e =>
       let* _ := log ERROR (MsgGridInfoFailed e) in
       ret (GridInfoError (exn_str e))).

Definition find_grid_row (self : MMT010Automation) (row_identifier : RowIdentifier)
  : M (option Locator) :=
  try_except
    (let* ready := wait_for_grid_ready self in
     if negb ready then ret None
     else
       match row_identifier with
       | RowInt n =>
           let* _ := log INFO (MsgFindRowByIndex n) in
           let row_locator := nth (data_rows self) (n - 1) in
           let* c := call (count row_locator) in
           if c >? 0 then ret (Some row_locator)
           else
             let* _ := log WARNING (MsgRowIndexMissing n) in
             ret None
       | RowStr s =>
           let* _ := log INFO (MsgFindRowByText s) in
           let row_locator := first (filter_has_text (data_rows self) s) in
           let* c := call (count row_locator) in
           if c >? 0 then ret (Some row_locator)
           else
             let* _ := log WARNING (MsgRowTextMissing s) in
             ret None
       end)
    (fun e =>
       let* _ := log ERROR (MsgFindRowError e) in
       ret None).

(** ['input[type="text"]:visible'] *)
Definition input_editor_selector : string :=
  "input[type=" +:+ dq +:+ "text" +:+ dq +:+ "]:visible".

Definition fill_single_cell (self : MMT010Automation) (row_locator : Locator)
    (column_name value : string) : M bool :=
  try_except
    (match column_mapping self !! column_name with
     | None =>
         let* _ := log WARNING (MsgUnknownColumn column_name) in
         ret false
     | Some col_index =>
         let* _ := log INFO (MsgFilling column_name col_index value) in
         let cell_locator :=
           sub_locator row_locator
             ("td:nth-child(" +:+ pretty (col_index + 1) +:+ ")") in
         let* c := call (count cell_locator) in
         if c =? 0 then
           let* _ := log ERROR (MsgCellMissing (col_index + 1)) in
           ret false
         else
           let* _ := call (dblclick cell_locator) in
           let* _ := sleep (1 # 2) in
           let input_editor := sub_locator cell_locator input_editor_selector in
           (* the inner try; [Some b] is its [return b] *)
           let* returned :=
             try_except
               (let* _ := call (wait_for input_editor "visible" 5000) in
                ret None)
               (fun _ =>
                  let* _ := log ERROR (MsgEditorMissing column_name) in
                  let* _ := call (click (page_locator "body")) in
                  ret (Some false)) in
           match returned with
           | Some b => ret b
           | None =>
               let* _ := call (fill input_editor value) in
               let* _ := call (press input_editor "Enter") in
               let* _ := sleep 1 in
               let* _ := log INFO (MsgFilled column_name) in
               ret true
           end
     end)
    (fun e =>
       let* _ := log ERROR (MsgFillError e) in
       ret false).

(** The search for a button among candidate selectors, first hit wins
    (the [for selector in ...: ... break] loops of [add_new_test_data] and
    [delete_test_data]). *)
Fixpoint probe_buttons (self : MMT010Automation) (button_selectors : list string)
  : M (option Locator) :=
  match button_selectors with
  | [] => ret None
  | selector :: rest =>
      let potential_button := sub_locator (grid_container self) selector in
      let* c := call (count potential_button) in
      if c >? 0 then ret (Some (first potential_button))
      else probe_buttons self rest
  end.

Definition add_button_selectors : list string :=
  [ "[id$=" +:+ dq +:+ "_DXCBtnNew" +:+ dq +:+ "]";
    "[id*=" +:+ dq +:+ "New" +:+ dq +:+ "]";
    "input[value=" +:+ dq +:+ "新增" +:+ dq +:+ "]";
    "a[title*=" +:+ dq +:+ "新增" +:+ dq +:+ "]" ].

(** The field loop of [add_new_test_data] (lines 336-340), from the count
    [success_count] it starts with. *)
Definition fill_fields (self : MMT010Automation) (last_row : Locator)
    (data_dict : list (string * string)) (success_count : Z) : M Z :=
  for_each data_dict success_count
    (fun '(field_name, field_value) success_count =>
       if decide (is_Some (column_mapping self !! field_name)) then
         let* success :=
           fill_single_cell self last_row field_name field_value in
         ret (if success then success_count + 1 else success_count)
       else ret success_count).

Definition add_new_test_data (self : MMT010Automation) (test_data : TestData)
  : M bool :=
  try_except
    (let* _ := log INFO MsgAddStart in
     let* ready := wait_for_grid_ready self in
     if negb ready then ret false
     else
       let* add_button := probe_buttons self add_button_selectors in
       let* _ :=
         match add_button with
         | Some b =>
             let* _ := log INFO MsgAddButtonFound in
             let* _ := call (click b) in
             sleep 2
         | None => log INFO MsgAddButtonMissing
         end in
       let data_dict := to_dict test_data in
       let* row_count := call (count (data_rows self)) in
       if row_count >? 0 then
         let last_row := nth (data_rows self) (row_count - 1) in
         let* _ := call (click last_row) in
         let* _ := sleep (1 # 2) in
         let* success_count := fill_fields self last_row data_dict 0 in
         let* success_rate := lift (py_truediv success_count (len data_dict)) in
         if float_ge success_rate threshold then
           let* _ := log INFO (MsgAddDone success_count (len data_dict)) in
           ret true
         else
           let* _ := log WARNING (MsgAddPartial success_count (len data_dict)) in
           ret false
       else
         let* _ := log WARNING MsgNoDataRows in
         ret false)
    (fun e =>
       let* _ := log ERROR (MsgAddFailed e) in
       ret false).

(** The field loop of [edit_test_data] (lines 374-381). *)
Definition edit_fields (self : MMT010Automation) (row_locator : Locator)
    (data_dict : list (string * string)) (success_count : Z) : M Z :=
  for_each data_dict success_count
    (fun '(field_name, field_value) success_count =>
       if decide (is_Some (column_mapping self !! field_name)) then
         let* _ := log INFO (MsgEditField field_name) in
         let* success :=
           fill_single_cell self row_locator field_name field_value in
         if success then ret (success_count + 1)
         else
           let* _ := log WARNING (MsgEditFieldFailed field_name) in
           ret success_count
       else ret success_count).

Definition edit_test_data (self : MMT010Automation)
    (row_identifier : RowIdentifier) (test_data : TestData) : M bool :=
  try_except
    (let* _ := log INFO (MsgEditStart row_identifier) in
     let* found := find_grid_row self row_identifier in
     match found with
     | None =>
         let* _ := log ERROR (MsgRowNotFound row_identifier) in
         ret false
     | Some row_locator =>
         let* _ := call (click row_locator) in
         let* _ := sleep (1 # 2) in
         let data_dict := to_dict test_data in
         let* success_count := edit_fields self row_locator data_dict 0 in
         let* success_rate := lift (py_truediv success_count (len data_dict)) in
         if float_ge success_rate threshold then
           let* _ := log INFO (MsgEditDone success_count (len data_dict)) in
           ret true
         else if success_count >? 0 then
           let* _ := log WARNING (MsgEditPartial success_count (len data_dict)) in
           ret true
         else
           let* _ := log ERROR MsgEditNone in
           ret false
     end)
    (fun e =>
       let* _ := log ERROR (MsgEditFailed e) in
       ret false).

Definition delete_button_selectors : list string :=
  [ "[id$=" +:+ dq +:+ "_DXCBtnDelete" +:+ dq +:+ "]";
    "[id*=" +:+ dq +:+ "Delete" +:+ dq +:+ "]";
    "input[value=" +:+ dq +:+ "刪除" +:+ dq +:+ "]";
    "a[title*=" +:+ dq +:+ "刪除" +:+ dq +:+ "]" ].

Definition confirm_buttons_selector : string :=
  "button:has-text(" +:+ dq +:+ "確定" +:+ dq +:+ "), button:has-text(" +:+ dq
  +:+ "OK" +:+ dq +:+ "), button:has-text(" +:+ dq +:+ "是" +:+ dq +:+ ")".

Definition delete_test_data (self : MMT010Automation)
    (row_identifier : RowIdentifier) : M bool :=
  try_except
    (let* _ := log INFO (MsgDeleteStart row_identifier) in
     let* found := find_grid_row self row_identifier in
     match found with
     | None =>
         let* _ := log ERROR (MsgRowNotFound row_identifier) in
         ret false
     | Some row_locator =>
         let* _ := call (click row_locator) in
         let* _ := sleep (1 # 2) in
         let* delete_button := probe_buttons self delete_button_selectors in
         match delete_button with
         | Some b =>
             let* _ := call (click b) in
             let* _ := log INFO MsgDeleteClicked in
             let* _ := sleep 2 in
             let confirm_buttons := page_locator confirm_buttons_selector in
             let* c := call (count confirm_buttons) in
             let* _ :=
               if c >? 0 then
                 let* _ := call (click (first confirm_buttons)) in
                 log INFO MsgDeleteConfirmed
               else ret tt in
             ret true
         | None =>
             let* _ := log ERROR MsgDeleteButtonMissing in
             ret false
         end
     end)
    (fun e =>
       let* _ := log ERROR (MsgDeleteFailed e) in
       ret false).

Definition view_test_data (self : MMT010Automation) : M ViewResult :=
  try_except
    (let* _ := log INFO MsgViewStart in
     let* grid_info := get_grid_info self in
     match grid_info with
     | GridInfoReady row_count headers =>
         if row_count =? 0 then
           let* _ := log INFO MsgViewEmpty in
           ret (ViewEmpty headers)
         else
           let max_preview := Z.min row_count 10 in
           let* preview_data :=
             for_each (range max_preview) []
               (fun i preview_data =>
                  try_except
                    (let row := nth (data_rows self) i in
                     let cells := sub_locator row "td" in
                     let* cell_count := call (count cells) in
                     let* row_data :=
                       for_each (range (Z.min cell_count 6)) []
                         (fun j row_data =>
                            try_except
                              (let* cell_text := call (text_content (nth cells j)) in
                               match cell_text with
                               | Some (String c s) =>
                                   ret (row_data ++ [strip (String c s)])
                               | _ => ret (row_data ++ [EmptyString])
                               end)
                              (fun _ => ret (row_data ++ [EmptyString]))) in
                     ret (preview_data ++ [row_data]))
                    (fun e =>
                       let* _ := log WARNING (MsgViewRowFailed (i + 1) e) in
                       ret (preview_data ++ [replicate 6 "讀取失敗"]))) in
           let* _ := log INFO (MsgViewDone row_count) in
           ret (ViewData row_count headers (len preview_data) preview_data)
     | _ => ret (ViewFailure "表格未準備就緒")
     end)
    (fun e =>
       let* _ := log ERROR (MsgViewFailed e) in
       ret (ViewFailure (exn_str e))).

(** The loop of [batch_add_test_data] (lines 523-537) over the enumerated
    items; [total] is [len(test_data_list)]. *)
Definition batch_loop (self : MMT010Automation) (total : Z)
    (items : list (Z * TestData)) (acc : Z * Z * list BatchDetail)
  : M (Z * Z * list BatchDetail) :=
  for_each items acc
    (fun '(i, test_data) '(success_count, failed_count, results) =>
       let* _ := log INFO (MsgBatchItem i total) in
       let* success := add_new_test_data self test_data in
       let acc :=
         if success then
           (success_count + 1, failed_count,
            results ++ [mkBatchDetail i "success" (to_dict test_data)])
         else
           (success_count, failed_count + 1,
            results ++ [mkBatchDetail i "failed" (to_dict test_data)]) in
       let* _ := if i <? total then sleep 1 else ret tt in
       ret acc).

Definition batch_add_test_data (self : MMT010Automation)
    (test_data_list : list TestData) : M BatchResult :=
  try_except
    (let* _ := log INFO (MsgBatchStart (len test_data_list)) in
     let* '(success_count, failed_count, results) :=
       batch_loop self (len test_data_list) (enumerate 1 test_data_list)
         (0, 0, []) in
     let* success_rate :=
       match test_data_list with
       | [] => ret (PyInt 0)
       | _ :: _ =>
           let* q := lift (py_truediv success_count (len test_data_list)) in
           ret (PyFloat q)
       end in
     let batch_result :=
       BatchReport (success_count >? 0) (len test_data_list) success_count
         failed_count success_rate results in
     let* _ := log INFO (MsgBatchDone success_count (len test_data_list)) in
     ret batch_result)
    (fun e =>
       let* _ := log ERROR (MsgBatchFailed e) in
       ret (BatchError (exn_str e) (len test_data_list) 0 (len test_data_list))).

End Operations.

(** ** A driver over a static page

    A model of the Playwright driver on a page that does not change: an
    element tree, locator resolution in document order, and actions that
    succeed exactly when their target resolves to one visible element.  It
    follows the documented behaviour of Playwright's locators:
    - [loc.nth(i)] is zero based and, as in the driver's implementation
      [list.slice(i, i + 1)] with [-1] standing for the last element, a
      negative index counts from the end;
    - [loc.first] is the first resolved element;
    - [loc.filter(has_text=s)] with a string [s] keeps the elements whose
      text contains [s] "case-insensitively, as a substring", after white
      space is normalised;
    - actions and [wait_for] are strict (a locator that resolves to several
      elements is an error) and time out on a missing or hidden element. *)
Module StaticPage.

(** An element: the selectors (among those the automation uses) that it
    matches, whether it is visible, its text content, its children. *)
#[warnings="-register-all"]
Inductive Element : Type :=
  | Elem (sels : list string) (visible : bool) (text : string)
         (children : list Element).

Definition el_sels (e : Element) : list string :=
  match e with Elem s _ _ _ => s end.
Definition el_visible (e : Element) : bool :=
  match e with Elem _ v _ _ => v end.
Definition el_text (e : Element) : string :=
  match e with Elem _ _ t _ => t end.
Definition el_children (e : Element) : list Element :=
  match e with Elem _ _ _ c => c end.

(** The page is the list of its top-level elements. *)
Definition Page : Type := list Element.

(** The elements below [e], in document order. *)
Fixpoint descendants (e : Element) : list Element :=
  match e with
  | Elem _ _ _ cs => flat_map (fun c => c :: descendants c) cs
  end.

Definition all_elements (p : Page) : list Element :=
  flat_map (fun e => e :: descendants e) p.

Definition matches (selector : string) (e : Element) : bool :=
  bool_decide (selector ∈ el_sels e).

(** JavaScript's [\s] and [toLowerCase] on the ASCII range. *)
Definition js_is_space (c : ascii) : bool :=
  let n := Z.of_nat (nat_of_ascii c) in
  ((9 <=? n) && (n <=? 13)) || (n =? 32).

Definition to_lower_ascii (c : ascii) : ascii :=
  let n := nat_of_ascii c in
  if ((65 <=? n) && (n <=? 90))%nat then ascii_of_nat (n + 32) else c.

Fixpoint to_lower (s : string) : string :=
  match s with
  | EmptyString => EmptyString
  | String c s' => String (to_lower_ascii c) (to_lower s')
  end.

(** [s.trim().replace(/\s+/g, ' ')]: [pending] tells that white space was
    seen after a word and a single space is due before the next one. *)
Fixpoint collapse_spaces (pending : bool) (started : bool) (s : string) : string :=
  match s with
  | EmptyString => EmptyString
  | String c s' =>
      if js_is_space c then collapse_spaces started started s'
      else
        if pending then String " "%char (String c (collapse_spaces false true s'))
        else String c (collapse_spaces false true s')
  end.

Definition normalize_white_space (s : string) : string :=
  collapse_spaces false false s.

(** [hay.includes(needle)] *)
Fixpoint includes (needle hay : string) : bool :=
  String.prefix needle hay ||
  match hay with
  | EmptyString => false
  | String _ hay' => includes needle hay'
  end.

(** The matcher of [has_text] for a string argument. *)
Definition has_text (s : string) (e : Element) : bool :=
  includes (to_lower (normalize_white_space s))
           (to_lower (normalize_white_space (el_text e))).

(** [list.slice(start, end)] of JavaScript. *)
Definition js_slice {A} (l : list A) (start stop : Z) : list A :=
  let n := len l in
  let from := if start <? 0 then Z.max (n + start) 0 else Z.min start n in
  let to := if stop <? 0 then Z.max (n + stop) 0 else Z.min stop n in
  take (Z.to_nat (to - from)) (drop (Z.to_nat from) l).

(** The [nth=] selector engine. *)
Definition query_nth {A} (l : list A) (i : Z) : list A :=
  let i := if i =? -1 then len l - 1 else i in
  js_slice l i (i + 1).

Fixpoint resolve (p : Page) (l : Locator) : list Element :=
  match l with
  | page_locator selector => filter (fun e => matches selector e = true) (all_elements p)
  | sub_locator parent selector =>
      flat_map (fun e => filter (fun d => matches selector d = true) (descendants e))
               (resolve p parent)
  | nth parent i => query_nth (resolve p parent) i
  | first parent => take 1 (resolve p parent)
  | filter_has_text parent s =>
      filter (fun e => has_text s e = true) (resolve p parent)
  end.

(** One element to act on, or the driver's error. *)
Definition strict_target (p : Page) (l : Locator) : Res Element :=
  match resolve p l with
  | [] => Raise (PlaywrightTimeoutError "Timeout exceeded")
  | [e] => if el_visible e then Ok e
           else Raise (PlaywrightTimeoutError "Timeout exceeded")
  | _ => Raise (PlaywrightError "strict mode violation")
  end.

Definition act (p : Page) (l : Locator) : Res unit * Page :=
  match strict_target p l with
  | Ok _ => (Ok tt, p)
  | Raise e => (Raise e, p)
  end.

#[global] Instance static_driver : Driver Page := {
  wait_for l state timeout p := act p l;
  count l p := (Ok (len (resolve p l)), p);
  click l p := act p l;
  dblclick l p := act p l;
  fill l text p := act p l;
  press l key p := act p l;
  text_content l p :=
    match strict_target p l with
    | Ok e => (Ok (Some (el_text e)), p)
    | Raise e => (Raise e, p)
    end
}.

(** *** Test pages *)

(** A cell with an inline text editor, or without one. *)
Definition cell (i : Z) (editable : bool) (text : string) : Element :=
  Elem ["td"; "td:nth-child(" +:+ pretty i +:+ ")"] true text
       (if editable then [Elem [input_editor_selector] true EmptyString []] else []).

(** A data row from its cells' texts; [editable] tells which cells open an
    editor.  The first child is the command cell of the grid. *)
Definition data_row (editable : Z -> bool) (texts : list string) : Element :=
  Elem ["tr.dxgvDataRow_DEVMVC"] true (String.concat " " texts)
       (cell 1 false EmptyString ::
        map (fun '(i, t) => cell i (editable i) t) (enumerate 2 texts)).

Definition grid (visible : bool) (rows : list Element) : Element :=
  Elem ["[id$=" +:+ dq +:+ "Setting_GridViewPartial" +:+ dq +:+ "]"] visible EmptyString rows.

Definition body (content : list Element) : Page := [Elem ["body"] true EmptyString content].

End StaticPage.

(** The automation object built from the default configuration. *)
Definition default_automation : MMT010Automation :=
  default (mkMMT010Automation Config.default_web_config ∅
             (page_locator EmptyString) (page_locator EmptyString) (page_locator EmptyString)
             (page_locator EmptyString) (page_locator EmptyString))
          (init Config.default_web_config).

Definition sample_data : TestData :=
  mkTestData "AB-1234" "FT" "V1.0.0" "sample" "DEFAULT".

Definition two_rows : StaticPage.Page :=
  StaticPage.body
    [StaticPage.grid true
       [StaticPage.data_row (fun _ => true) ["P-001"; "FT"; "V1.0.0"; "first"; "G1"];
        StaticPage.data_row (fun _ => true) ["p-002"; "PT"; "V2.0.0"; "second"; "G2"]]].

(** ** A driver that follows a script

    A driver whose page reacts: every wait on a page-level locator (the grid
    container) takes the next entry of a script and times out when it is
    [false]; every other call succeeds, and every locator counts one
    element.  It serves to run a batch whose items fare differently. *)
Module Scripted.

Record Script : Type := mkScript { upcoming : list bool }.

Definition wait (l : Locator) (s : Script) : Res unit * Script :=
  match l, upcoming s with
  | page_locator _, ready :: rest =>
      (if ready then Ok tt else Raise (PlaywrightTimeoutError "Timeout exceeded"),
       mkScript rest)
  | _, _ => (Ok tt, s)
  end.

#[global] Instance scripted_driver : Driver Script := {
  wait_for l state timeout s := wait l s;
  count l s := (Ok 1, s);
  click l s := (Ok tt, s);
  dblclick l s := (Ok tt, s);
  fill l text s := (Ok tt, s);
  press l key s := (Ok tt, s);
  text_content l s := (Ok (Some EmptyString), s)
}.

End Scripted.

(** The log records that outline a batch: the start of an item, the start
    of its create and how the create ended. *)
Definition is_batch_mark (ev : Event) : bool :=
  match ev with
  | EvLog _ (MsgBatchItem _ _) | EvLog _ MsgAddStart
  | EvLog _ (MsgAddDone _ _) | EvLog _ (MsgAddPartial _ _)
  | EvLog _ (MsgGridWaitFailed _) | EvLog _ MsgNoDataRows
  | EvLog _ (MsgAddFailed _) => true
  | _ => false
  end.

(** The default automation with the column of MFGID群組 removed from the
    mapping. *)
Definition automation_without_group : MMT010Automation :=
  {| config := config default_automation;
     column_mapping := delete "MFGID群組" (column_mapping default_automation);
     grid_container := grid_container default_automation;
     data_rows := data_rows default_automation;
     header_row := header_row default_automation;
     search_button := search_button default_automation;
     save_all_button := save_all_button default_automation |}.

(** A grid with one row in which only the cell of 料號 opens an editor. *)
Definition one_editable_cell : StaticPage.Page :=
  StaticPage.body
    [StaticPage.grid true
       [StaticPage.data_row (fun i => i =? 2)
          ["P-001"; "FT"; "V1.0.0"; "first"; "G1"]]].

(** The data rows of the grid as the driver resolves them, in rendered
    order. *)
Definition rendered_rows (self : MMT010Automation) (p : StaticPage.Page)
  : list StaticPage.Element :=
  StaticPage.resolve p (data_rows self).

(** The grid container is there, alone and visible. *)
Definition grid_visible (self : MMT010Automation) (p : StaticPage.Page) : Prop :=
  exists g, StaticPage.strict_target p (grid_container self) = Ok g.



(** ** Reading the output of an operation *)

(** The events that tell what happened to the fields of a record: the start
    of a cell edit, its confirmation, the rejection of a column that is not
    in the mapping, and the final count of an operation. *)
Definition is_field_event (ev : Event) : bool :=
  match ev with
  | EvLog _ (MsgFilling _ _ _) | EvLog _ (MsgFilled _)
  | EvLog _ (MsgUnknownColumn _)
  | EvLog _ (MsgAddDone _ _) | EvLog _ (MsgAddPartial _ _)
  | EvLog _ (MsgEditDone _ _) | EvLog _ (MsgEditPartial _ _)
  | EvLog _ MsgEditNone => true
  | _ => false
  end.

Fixpoint field_events (t : list Event) : list Event :=
  match t with
  | [] => []
  | ev :: t' =>
      if is_field_event ev then ev :: field_events t' else field_events t'
  end.

(** The cell edits attempted, in order: column name, column index, value. *)
Fixpoint fill_attempts (t : list Event) : list (string * Z * string) :=
  match t with
  | [] => []
  | EvLog _ (MsgFilling column_name col_index value) :: t' =>
      (column_name, col_index, value) :: fill_attempts t'
  | _ :: t' => fill_attempts t'
  end.

(** The columns a cell edit rejected as unknown. *)
Fixpoint unknown_columns (t : list Event) : list string :=
  match t with
  | [] => []
  | EvLog _ (MsgUnknownColumn column_name) :: t' =>
      column_name :: unknown_columns t'
  | _ :: t' => unknown_columns t'
  end.

(** The number of cell edits confirmed. *)
Fixpoint confirmed_edits (t : list Event) : Z :=
  match t with
  | [] => 0
  | EvLog _ (MsgFilled _) :: t' => 1 + confirmed_edits t'
  | _ :: t' => confirmed_edits t'
  end.

(** The counts [(success_count, len(data_dict))] a create or an edit put in
    its final message; an edit that confirmed nothing logs no counts. *)
Fixpoint reported_counts (t : list Event) : list (Z * Z) :=
  match t with
  | [] => []
  | EvLog _ (MsgAddDone k n) :: t' | EvLog _ (MsgAddPartial k n) :: t'
  | EvLog _ (MsgEditDone k n) :: t' | EvLog _ (MsgEditPartial k n) :: t' =>
      (k, n) :: reported_counts t'
  | _ :: t' => reported_counts t'
  end.

(** Whether the operation got as far as judging the field outcomes. *)
Fixpoint decided (t : list Event) : bool :=
  match t with
  | [] => false
  | EvLog _ (MsgAddDone _ _) :: _ | EvLog _ (MsgAddPartial _ _) :: _
  | EvLog _ (MsgEditDone _ _) :: _ | EvLog _ (MsgEditPartial _ _) :: _
  | EvLog _ MsgEditNone :: _ => true
  | _ :: t' => decided t'
  end.

(** The events of one cell edit on a mapped column: the attempt, and the
    confirmation when it succeeded. *)
Definition cell_events (column_name : string) (col_index : Z) (value : string)
    (confirmed : bool) : list Event :=
  EvLog INFO (MsgFilling column_name col_index value) ::
  (if confirmed then [EvLog INFO (MsgFilled column_name)] else []).

(** The items of the record that have a column, with the column. *)
Fixpoint mapped_items (mapping : gmap string Z) (items : list (string * string))
  : list (string * Z * string) :=
  match items with
  | [] => []
  | (field_name, field_value) :: items' =>
      match mapping !! field_name with
      | Some col_index =>
          (field_name, col_index, field_value) :: mapped_items mapping items'
      | None => mapped_items mapping items'
      end
  end.

(** The field events of a loop over the mapped items whose cell edits had
    the outcomes [outcomes]. *)
Fixpoint loop_events (items : list (string * Z * string)) (outcomes : list bool)
  : list Event :=
  match items, outcomes with
  | (column_name, col_index, value) :: items', b :: outcomes' =>
      cell_events column_name col_index value b ++ loop_events items' outcomes'
  | _, _ => []
  end.

(** The number of [True] in a list of outcomes. *)
Fixpoint count_true (bs : list bool) : Z :=
  match bs with
  | [] => 0
  | b :: bs' => (if b then 1 else 0) + count_true bs'
  end.

(** The success rate as a rational number. *)
Definition rate (k n : Z) : Q := (inject_Z k / inject_Z n)%Q.

(** ** Postconditions *)

(** [wp m w Q]: running [m] from the page state [w] ends with a result, a
    state and an output that satisfy [Q]. *)
Definition wp {W A} (m : M W A) (w : W)
    (Q : Res A -> W -> list Event -> Prop) : Prop :=
  match m w with (r, w', t) => Q r w' t end.

(** The batch loop as the sequence of its items: each create runs to its
    end from the state the previous one left, and a delay of one second
    follows every item but the last. *)
Inductive batch_items {W} `{Driver W} (self : MMT010Automation) (total : Z)
  : Z -> list TestData -> W -> list bool -> list Event -> W -> Prop :=
  | batch_items_nil i w : batch_items self total i [] w [] [] w
  | batch_items_cons i test_data rest w b w1 t1 bs t w2 :
      add_new_test_data self test_data w = (Ok b, w1, t1) ->
      batch_items self total (i + 1) rest w1 bs t w2 ->
      batch_items self total i (test_data :: rest) w (b :: bs)
        (EvLog INFO (MsgBatchItem i total) :: t1 ++
         match rest with [] => [] | _ :: _ => [EvSleep 1] end ++ t)
        w2.

(** The details of a batch from the outcomes of its items. *)
Fixpoint batch_details (i : Z) (l : list TestData) (bs : list bool)
  : list BatchDetail :=
  match l, bs with
  | test_data :: l', b :: bs' =>
      mkBatchDetail i (if b then "success" else "failed") (to_dict test_data)
      :: batch_details (i + 1) l' bs'
  | _, _ => []
  end.

(** A result that is not an exception, with an output without field
    events. *)
Definition quiet_total {A} (r : Res A) (t : list Event) : Prop :=
  is_ok r = true /\ field_events t = [].

(** The final message of a create that confirmed [k] of the five fields. *)
Definition add_report (k : Z) : Event :=
  if 4 <=? k then EvLog INFO (MsgAddDone k 5)
  else EvLog WARNING (MsgAddPartial k 5).

(** The final message of an edit that confirmed [k] of the five fields. *)
Definition edit_report (k : Z) : Event :=
  if 4 <=? k then EvLog INFO (MsgEditDone k 5)
  else if k >? 0 then EvLog WARNING (MsgEditPartial k 5)
  else EvLog ERROR MsgEditNone.

(** The log records that tell how a delete went: the row was not found,
    the delete button was clicked, the confirmation was clicked, no delete
    button was found, or the operation failed. *)
Definition is_delete_event (ev : Event) : bool :=
  match ev with
  | EvLog _ (MsgRowNotFound _) | EvLog _ MsgDeleteClicked
  | EvLog _ MsgDeleteConfirmed | EvLog _ MsgDeleteButtonMissing
  | EvLog _ (MsgDeleteFailed _) => true
  | _ => false
  end.

Definition delete_events (t : list Event) : list Event :=
  List.filter is_delete_event t.

(** A page whose grid container is there but hidden. *)
Definition hidden_grid : StaticPage.Page :=
  StaticPage.body
    [StaticPage.grid false
       [StaticPage.data_row (fun _ => true) ["P-001"; "FT"; "V1.0.0"; "first"; "G1"]]].

(** ** data_manager.py: validation and comparison of records *)

(** [len(s)] for a Python string held as its UTF-8 bytes: the number of
    code points, that is of bytes that do not continue a character. *)
Fixpoint py_len (s : string) : Z :=
  match s with
  | EmptyString => 0
  | String c s' => (if is_continuation c then 0 else 1) + py_len s'
  end.

(** ** [str.upper()]

    Every character is replaced by its upper-case mapping, which may be
    several characters long.  On the ASCII range the mapping turns a-z into
    A-Z and leaves the rest; outside it is the full upper-case mapping of
    the interpreter's Unicode database, a parameter here
    ([upper_full], from the bytes of a character to the bytes of its
    mapping). *)
Definition to_upper_ascii (c : ascii) : ascii :=
  let n := nat_of_ascii c in
  if ((97 <=? n) && (n <=? 122))%nat then ascii_of_nat (n - 32) else c.

Definition is_ascii (c : ascii) : bool := (nat_of_ascii c <? 128)%nat.

Section Upper.

Variable upper_full : list ascii -> list ascii.

Definition upper_char (ch : list ascii) : list ascii :=
  match ch with
  | [c] => if is_ascii c then [to_upper_ascii c] else upper_full ch
  | _ => upper_full ch
  end.

Definition upper (s : string) : string :=
  string_of_list_ascii
    (concat (map upper_char (chars (list_ascii_of_string s)))).

End Upper.

(** The outcome of a field validator: the value to store, or the message of
    the [ValueError] it raises. *)
Inductive Validated (A : Type) : Type :=
  | Valid (a : A)
  | Invalid (msg : string).
Arguments Valid {A} a.
Arguments Invalid {A} msg.

(** [not v or len(v) < n] *)
Definition too_short (v : string) (n : Z) : bool :=
  match v with
  | EmptyString => true
  | _ => py_len v <? n
  end.

Definition validate_part_number (upper_full : list ascii -> list ascii)
    (v : string) : Validated string :=
  if too_short v 3 then Invalid "料號不能為空且至少3個字符"
  else Valid (upper upper_full (strip v)).

Definition allowed_stations : list string := ["B/I"; "FT"; "PT"; "SHIP"; "BI"].

Definition validate_station (v : string) : Validated string :=
  if bool_decide (v ∈ allowed_stations) then Valid v
  else Invalid "站位必須為 ['B/I', 'FT', 'PT', 'SHIP', 'BI'] 之一".

Definition validate_version (v : string) : Validated string :=
  if too_short v 5 then Invalid "版本號不能為空且至少5個字符"
  else Valid (strip v).

Definition validate_description (v : string) : Validated string :=
  if too_short v 3 then Invalid "描述不能為空且至少3個字符"
  else Valid (strip v).

(** A string of ASCII characters only. *)
Definition ascii_only (s : string) : Prop :=
  Forall (fun c => is_ascii c = true) (list_ascii_of_string s).

(** A string of white space only. *)
Definition blank (s : string) : Prop :=
  Forall (fun ch => is_space_char ch = true) (chars (list_ascii_of_string s)).

(** A value that a validator with the minimum length [min_length] stores
    again as it is whenever it accepts it, and accepts exactly when it has
    that length. *)
Definition settled (validator : string -> Validated string) (min_length : Z)
    (a : string) : Prop :=
  (validator a = Valid a <-> min_length <= py_len a) /\
  (forall a', validator a = Valid a' -> a' = a).

(** The bytes of one character: a first byte and continuation bytes. *)
Definition one_char (ch : list ascii) : Prop :=
  match ch with
  | [] => False
  | _ :: rest => Forall (fun c => is_continuation c = true) rest
  end.

(** The same, with a first byte that does not continue a character. *)
Definition whole_char (ch : list ascii) : Prop :=
  match ch with
  | [] => False
  | c :: rest =>
      is_continuation c = false /\ Forall (fun c => is_continuation c = true) rest
  end.

(** A list of characters as [chars] returns them: only the first may begin
    with a continuation byte. *)
Definition well_split (l : list (list ascii)) : Prop :=
  match l with
  | [] => True
  | ch :: rest => one_char ch /\ Forall whole_char rest
  end.

(** [DataManager._calculate_similarity] *)
Definition _calculate_similarity (data1 data2 : TestData) : float :=
  if bool_decide (料號 data1 = 料號 data2) && bool_decide (站位 data1 = 站位 data2)
  then 1%float
  else
    let matches := 0 in
    let total := 5 in
    let matches := if bool_decide (料號 data1 = 料號 data2) then matches + 1 else matches in
    let matches := if bool_decide (站位 data1 = 站位 data2) then matches + 1 else matches in
    let matches := if bool_decide (版本 data1 = 版本 data2) then matches + 1 else matches in
    let matches := if bool_decide (描述 data1 = 描述 data2) then matches + 1 else matches in
    let matches :=
      if bool_decide (MFGID群組 data1 = MFGID群組 data2) then matches + 1 else matches in
    PrimFloat.div (float_of_Z matches) (float_of_Z total).

(** [DataManager.find_duplicates] over the current data set; the default
    threshold is [threshold] (0.8). *)
Fixpoint find_duplicates (current_dataset : list TestData)
    (target_data : TestData) (threshold : float) : list TestData :=
  match current_dataset with
  | [] => []
  | data :: rest =>
      let similarity := _calculate_similarity target_data data in
      if float_ge similarity threshold
      then data :: find_duplicates rest target_data threshold
      else find_duplicates rest target_data threshold
  end.

(** The number of the five fields on which two records differ. *)
Definition differing_fields (data1 data2 : TestData) : nat :=
  length (List.filter negb
            [ bool_decide (料號 data1 = 料號 data2);
              bool_decide (站位 data1 = 站位 data2);
              bool_decide (版本 data1 = 版本 data2);
              bool_decide (描述 data1 = 描述 data2);
              bool_decide (MFGID群組 data1 = MFGID群組 data2) ]).

(** Whether [find_duplicates] with the default threshold keeps [data]:
    料號 and 站位 are both those of the target, or at most one of the five
    fields differs. *)
Definition is_duplicate (target_data data : TestData) : bool :=
  (bool_decide (料號 target_data = 料號 data) &&
   bool_decide (站位 target_data = 站位 data)) ||
  (differing_fields target_data data <=? 1)%nat.

(** ** data_manager.py: [DataManager.validate_data] *)

(** One entry of [DataConfig.validation_rules]: the keys of the rule that
    the validation reads, each present or absent. *)
Record Rule : Type := mkRule {
  rule_pattern : option string;
  rule_allowed_values : option (list string);
  rule_min_length : option Z;
  rule_description : option string
}.

(** config.py: the default rules. *)
Definition default_validation_rules : gmap string Rule :=
  list_to_map
    [ ("料號", mkRule (Some "^[A-Z0-9]{10,}$") None None
                 (Some "料號必須為10位以上的大寫字母和數字組合"));
      ("站位", mkRule None (Some ["B/I"; "FT"; "PT"; "SHIP"]) None
                 (Some "站位必須為預定義值之一"));
      ("版本", mkRule (Some "^V\d+\.\d+\.\d+\.\d+_\d+\.\d+\.\d+\.\d+E\d+\.\d+.*$")
                 None None (Some "版本號必須符合指定格式"));
      ("描述", mkRule None None (Some 5) (Some "描述不能為空且至少5個字符"));
      ("MFGID群組", mkRule None None None (Some "MFGID群組可選，預設為DEFAULT")) ].

(** The exceptions the body of [validate_data] can raise: a key missing
    from a rule, or an error of the regular expression engine. *)
Inductive ValidationExn : Type :=
  | KeyError (key : string)
  | ReError (msg : string).

(** The message templates of [validate_data], with the values interpolated
    into them. *)
Inductive ValidationMsg : Type :=
  | VMsgPartNumberFormat (description : string)
  | VMsgStationNotAllowed (allowed_values : list string)
  | VMsgVersionFormat (description : string)
  | VMsgDescriptionShort (min_length : Z)
  | VMsgDuplicates (n : Z)
  | VMsgQualityExcellent
  | VMsgQualityGood
  | VMsgQualityPoor
  | VMsgValidationFailed (e : ValidationExn).

Record ValidationResult : Type := mkValidationResult {
  is_valid : bool;
  errors : list ValidationMsg;
  warnings : list ValidationMsg;
  suggestions : list ValidationMsg;
  score : float
}.

(** [result.score += points] *)
Definition add_score (points : float) (r : ValidationResult) : ValidationResult :=
  mkValidationResult (is_valid r) (errors r) (warnings r) (suggestions r)
    (PrimFloat.add (score r) points).

(** [result.errors.append(msg); result.is_valid = False] *)
Definition add_error (msg : ValidationMsg) (r : ValidationResult) : ValidationResult :=
  mkValidationResult false (errors r ++ [msg]) (warnings r) (suggestions r) (score r).

(** [result.warnings.append(msg)] *)
Definition add_warning (msg : ValidationMsg) (r : ValidationResult) : ValidationResult :=
  mkValidationResult (is_valid r) (errors r) (warnings r ++ [msg]) (suggestions r)
    (score r).

(** [result.suggestions.append(msg)] *)
Definition add_suggestion (msg : ValidationMsg) (r : ValidationResult)
  : ValidationResult :=
  mkValidationResult (is_valid r) (errors r) (warnings r) (suggestions r ++ [msg])
    (score r).

(** A statement group of the [try] body: it raises, leaving the result as
    it was, or it updates the result. *)
Definition Step : Type := ValidationResult -> ValidationExn + ValidationResult.

(** [rule['description']] *)
Definition description_of (rule : Rule) : ValidationExn + string :=
  match rule_description rule with
  | Some d => inr d
  | None => inl (KeyError "description")
  end.

Section ValidateData.

(** [re.match(pattern, string)] as a truth value, or the error it raises. *)
Variable re_match : string -> string -> ValidationExn + bool.
(** [self.config.validation_rules] and [self.current_dataset] *)
Variable validation_rules : gmap string Rule.
Variable current_dataset : list TestData.

Definition check_part_number (data : TestData) : Step := fun r =>
  match validation_rules !! "料號" with
  | Some rule =>
      match rule_pattern rule with
      | Some pattern =>
          match re_match pattern (料號 data) with
          | inl e => inl e
          | inr false =>
              match description_of rule with
              | inl e => inl e
              | inr d => inr (add_error (VMsgPartNumberFormat d) r)
              end
          | inr true => inr (add_score 15 r)
          end
      | None => inr r
      end
  | None => inr r
  end.

Definition check_station (data : TestData) : Step := fun r =>
  match validation_rules !! "站位" with
  | Some rule =>
      match rule_allowed_values rule with
      | Some allowed_values =>
          if bool_decide (站位 data ∈ allowed_values) then inr (add_score 15 r)
          else inr (add_error (VMsgStationNotAllowed allowed_values) r)
      | None => inr r
      end
  | None => inr r
  end.

Definition check_version (data : TestData) : Step := fun r =>
  match validation_rules !! "版本" with
  | Some rule =>
      match rule_pattern rule with
      | Some pattern =>
          match re_match pattern (版本 data) with
          | inl e => inl e
          | inr false =>
              match description_of rule with
              | inl e => inl e
              | inr d => inr (add_warning (VMsgVersionFormat d) r)
              end
          | inr true => inr (add_score 15 r)
          end
      | None => inr r
      end
  | None => inr r
  end.

Definition check_description (data : TestData) : Step := fun r =>
  match validation_rules !! "描述" with
  | Some rule =>
      match rule_min_length rule with
      | Some min_length =>
          if py_len (描述 data) <? min_length
          then inr (add_warning (VMsgDescriptionShort min_length) r)
          else inr (add_score 15 r)
      | None => inr r
      end
  | None => inr r
  end.

Definition check_duplicates (data : TestData) : Step := fun r =>
  match find_duplicates current_dataset data threshold with
  | [] => inr r
  | duplicates => inr (add_warning (VMsgDuplicates (len duplicates)) r)
  end.

Definition suggest_quality : Step := fun r =>
  if float_ge (score r) 90 then inr (add_suggestion VMsgQualityExcellent r)
  else if float_ge (score r) 70 then inr (add_suggestion VMsgQualityGood r)
  else inr (add_suggestion VMsgQualityPoor r).

(** The steps in order, up to the first that raises. *)
Fixpoint run_steps (steps : list Step) (r : ValidationResult)
  : option ValidationExn * ValidationResult :=
  match steps with
  | [] => (None, r)
  | step :: rest =>
      match step r with
      | inr r' => run_steps rest r'
      | inl e => (Some e, r)
      end
  end.

Definition validate_data (data : TestData) : ValidationResult :=
  let result := mkValidationResult true [] [] [] 0 in
  match run_steps
          [ (fun r => inr (add_score 40 r));
            check_part_number data; check_station data; check_version data;
            check_description data; check_duplicates data; suggest_quality ]
          result with
  | (None, result) => result
  | (Some e, result) =>
      mkValidationResult false (errors result ++ [VMsgValidationFailed e])
        (warnings result) (suggestions result) 0
  end.

End ValidateData.

(** A page whose visible grid renders no data row. *)
Definition empty_grid : StaticPage.Page :=
  StaticPage.body [StaticPage.grid true []].

(** * Proofs *)

(** ** Arithmetic of the success rate *)

Lemma len_to_dict (test_data : TestData) : len (to_dict test_data) = 5.
Proof. reflexivity. Qed.

(** On the counts that occur, the float comparison [k / 5 >= 0.8] decides
    [k >= 4], which is [k / 5 >= 8 / 10] on the rationals. *)
Lemma rate_threshold_float (k : Z) :
  0 <= k <= 5 ->
  exists q, py_truediv k 5 = Ok q /\ float_ge q threshold = (4 <=? k).
Proof.
  intros Hk.
  assert (k = 0 \/ k = 1 \/ k = 2 \/ k = 3 \/ k = 4 \/ k = 5) as Hc by lia.
  destruct Hc as [-> | [-> | [-> | [-> | [-> | ->]]]]];
    eexists; (split; [reflexivity | vm_compute; reflexivity]).
Qed.


Lemma py_truediv_total (k n : Z) : n <> 0 -> is_ok (py_truediv k n) = true.
Proof.
  intros Hn. unfold py_truediv.
  destruct (Z.eqb_spec n 0) as [->|_]; [done | reflexivity].
Qed.

(** ** Rules for postconditions *)

Section Rules.

Context {W : Type}.

Lemma wp_mono {A} (m : M W A) w (Q Q' : Res A -> W -> list Event -> Prop) :
  wp m w Q -> (forall r w' t, Q r w' t -> Q' r w' t) -> wp m w Q'.
Proof. unfold wp. destruct (m w) as [[r w'] t]. auto. Qed.

Lemma wp_ret {A} (a : A) w (Q : Res A -> W -> list Event -> Prop) :
  Q (Ok a) w [] -> wp (ret a) w Q.
Proof. done. Qed.

Lemma wp_lift {A} (r : Res A) w (Q : Res A -> W -> list Event -> Prop) :
  Q r w [] -> wp (lift r) w Q.
Proof. done. Qed.

Lemma wp_log lvl msg w (Q : Res unit -> W -> list Event -> Prop) :
  Q (Ok tt) w [EvLog lvl msg] -> wp (log lvl msg) w Q.
Proof. done. Qed.

Lemma wp_sleep seconds w (Q : Res unit -> W -> list Event -> Prop) :
  Q (Ok tt) w [EvSleep seconds] -> wp (sleep seconds) w Q.
Proof. done. Qed.

(** A driver call may return anything and leave any state. *)
Lemma wp_call {A} (op : W -> Res A * W) w (Q : Res A -> W -> list Event -> Prop) :
  (forall r w', Q r w' []) -> wp (call op) w Q.
Proof. intros HQ. unfold wp, call. destruct (op w). apply HQ. Qed.

Lemma wp_bind {A B} (m : M W A) (k : A -> M W B) w
    (Q : Res B -> W -> list Event -> Prop) :
  wp m w (fun r w1 t1 =>
            match r with
            | Ok a => wp (k a) w1 (fun r2 w2 t2 => Q r2 w2 (t1 ++ t2))
            | Raise e => Q (Raise e) w1 t1
            end) ->
  wp (bind m k) w Q.
Proof.
  unfold wp, bind. destruct (m w) as [[[a|e] w1] t1]; [|done].
  destruct (k a w1) as [[r2 w2] t2]. done.
Qed.

Lemma wp_try_except {A} (m : M W A) (h : Exn -> M W A) w
    (Q : Res A -> W -> list Event -> Prop) :
  wp m w (fun r w1 t1 =>
            match r with
            | Ok a => Q (Ok a) w1 t1
            | Raise e => wp (h e) w1 (fun r2 w2 t2 => Q r2 w2 (t1 ++ t2))
            end) ->
  wp (try_except m h) w Q.
Proof.
  unfold wp, try_except. destruct (m w) as [[[a|e] w1] t1]; [done|].
  destruct (h e w1) as [[r2 w2] t2]. done.
Qed.

(** The result of a run, for statements on [m w] itself. *)
Lemma wp_run {A} (m : M W A) w (Q : Res A -> W -> list Event -> Prop) :
  wp m w Q -> forall r w' t, m w = (r, w', t) -> Q r w' t.
Proof. unfold wp. intros HQ r w' t E. by rewrite E in HQ. Qed.

Lemma wp_intro {A} (m : M W A) w (Q : Res A -> W -> list Event -> Prop) :
  (forall r w' t, m w = (r, w', t) -> Q r w' t) -> wp m w Q.
Proof. unfold wp. intros HQ. destruct (m w) as [[r w'] t] eqn:E. auto. Qed.

End Rules.

(** One step of symbolic execution. *)
Ltac wp_step :=
  lazymatch goal with
  | |- wp (ret _) _ _ => apply wp_ret
  | |- wp (log _ _) _ _ => apply wp_log
  | |- wp (sleep _) _ _ => apply wp_sleep
  | |- wp (lift _) _ _ => apply wp_lift
  | |- wp (bind _ _) _ _ => apply wp_bind
  | |- wp (try_except _ _) _ _ => apply wp_try_except
  | |- wp (call _) _ _ => apply wp_call; intros [?|?] ?
  end;
  cbv beta iota.

Ltac wp_steps := repeat wp_step.

(** ** The field events of an output *)

Lemma field_events_app (t1 t2 : list Event) :
  field_events (t1 ++ t2) = field_events t1 ++ field_events t2.
Proof.
  induction t1 as [|ev t1 IH]; [done|].
  cbn. destruct (is_field_event ev); cbn; by rewrite IH.
Qed.

Lemma fill_attempts_field_events (t : list Event) :
  fill_attempts (field_events t) = fill_attempts t.
Proof.
  induction t as [|[lvl []|] t IH]; cbn; congruence.
Qed.

Lemma confirmed_edits_field_events (t : list Event) :
  confirmed_edits (field_events t) = confirmed_edits t.
Proof.
  induction t as [|[lvl []|] t IH]; cbn; congruence.
Qed.

Lemma reported_counts_field_events (t : list Event) :
  reported_counts (field_events t) = reported_counts t.
Proof.
  induction t as [|[lvl []|] t IH]; cbn; congruence.
Qed.

Lemma decided_field_events (t : list Event) :
  decided (field_events t) = decided t.
Proof.
  induction t as [|[lvl []|] t IH]; cbn; congruence.
Qed.

Lemma unknown_columns_field_events (t : list Event) :
  unknown_columns (field_events t) = unknown_columns t.
Proof.
  induction t as [|[lvl []|] t IH]; cbn; congruence.
Qed.

Lemma unknown_columns_app (t1 t2 : list Event) :
  unknown_columns (t1 ++ t2) = unknown_columns t1 ++ unknown_columns t2.
Proof.
  induction t1 as [|[lvl []|] t1 IH]; cbn; congruence.
Qed.

Lemma fill_attempts_app (t1 t2 : list Event) :
  fill_attempts (t1 ++ t2) = fill_attempts t1 ++ fill_attempts t2.
Proof.
  induction t1 as [|[lvl []|] t1 IH]; cbn; congruence.
Qed.

Lemma confirmed_edits_app (t1 t2 : list Event) :
  confirmed_edits (t1 ++ t2) = confirmed_edits t1 + confirmed_edits t2.
Proof.
  induction t1 as [|[lvl []|] t1 IH]; cbn; lia.
Qed.

Lemma reported_counts_app (t1 t2 : list Event) :
  reported_counts (t1 ++ t2) = reported_counts t1 ++ reported_counts t2.
Proof.
  induction t1 as [|[lvl []|] t1 IH]; cbn; congruence.
Qed.

Lemma decided_app (t1 t2 : list Event) :
  decided (t1 ++ t2) = decided t1 || decided t2.
Proof.
  induction t1 as [|[lvl []|] t1 IH]; cbn; congruence.
Qed.

(** The events of a loop: its attempts are the mapped items, its
    confirmations the successful outcomes, and it reports no count. *)
Lemma loop_events_attempts items outcomes :
  length outcomes = length items ->
  fill_attempts (loop_events items outcomes) = items.
Proof.
  revert outcomes. induction items as [|[[c i] v] items IH]; intros [|b bs] Hl;
    try done.
  cbn. destruct b; cbn; rewrite IH; auto.
Qed.

Lemma loop_events_confirmed items outcomes :
  length outcomes = length items ->
  confirmed_edits (loop_events items outcomes) = count_true outcomes.
Proof.
  revert outcomes. induction items as [|[[c i] v] items IH]; intros [|b bs] Hl;
    try done.
  cbn. destruct b; cbn; rewrite IH; auto.
Qed.

Lemma loop_events_reported items outcomes :
  reported_counts (loop_events items outcomes) = [] /\
  decided (loop_events items outcomes) = false /\
  unknown_columns (loop_events items outcomes) = [].
Proof.
  revert outcomes. induction items as [|[[c i] v] items IH]; intros [|b bs];
    try done.
  cbn. destruct b; cbn; apply IH.
Qed.

Lemma count_true_bounds (bs : list bool) : 0 <= count_true bs <= len bs.
Proof.
  unfold len. induction bs as [|[] bs IH]; cbn [count_true length]; lia.
Qed.

Lemma mapped_items_length mapping items :
  (length (mapped_items mapping items) <= length items)%nat.
Proof.
  induction items as [|[f v] items IH]; cbn; [lia|].
  destruct (mapping !! f); cbn; lia.
Qed.

(** ** The operations under an arbitrary driver *)

Section AnyDriver.

Context {W : Type} `{Driver W}.

Implicit Types (self : MMT010Automation) (w : W) (t : list Event).

(** Closes a goal on the field events of a concatenated output. *)
Ltac field_events_done :=
  unfold quiet_total in *;
  repeat match goal with H : _ /\ _ |- _ => destruct H end;
  rewrite ?field_events_app;
  repeat match goal with H : field_events _ = _ |- _ => rewrite H end;
  cbn [field_events is_field_event app is_ok];
  try done.

Lemma wait_for_grid_ready_spec self w :
  wp (wait_for_grid_ready self) w (fun r _ t => quiet_total r t).
Proof.
  unfold wait_for_grid_ready. wp_steps; done.
Qed.

Lemma probe_buttons_spec self button_selectors w :
  wp (probe_buttons self button_selectors) w (fun _ _ t => field_events t = []).
Proof.
  revert w. induction button_selectors as [|selector rest IH]; intros w; cbn.
  - wp_steps. done.
  - wp_steps; [|done].
    destruct (a >? 0); [wp_steps; done|].
    eapply wp_mono; [apply IH|]. done.
Qed.

Lemma find_grid_row_spec self row_identifier w :
  wp (find_grid_row self row_identifier) w (fun r _ t => quiet_total r t).
Proof.
  unfold find_grid_row. wp_step.
  wp_step. eapply wp_mono; [apply wait_for_grid_ready_spec|].
  intros [ready|e] w1 t1 Hq; [|by destruct Hq].
  destruct ready; cbn [negb]; [|wp_steps; field_events_done].
  destruct row_identifier as [n|s]; wp_steps; try field_events_done.
  - destruct (a >? 0); wp_steps; field_events_done.
  - destruct (a >? 0); wp_steps; field_events_done.
Qed.

(** A cell edit never raises.  On a mapped column it logs its attempt once
    and its confirmation exactly when it returns [True]; on an unmapped
    column it returns [False] and attempts nothing. *)
Lemma fill_single_cell_spec self row_locator column_name value w :
  wp (fill_single_cell self row_locator column_name value) w
    (fun r _ t =>
       exists b, r = Ok b /\
         match column_mapping self !! column_name with
         | Some col_index =>
             field_events t = cell_events column_name col_index value b
         | None =>
             b = false /\
             field_events t = [EvLog WARNING (MsgUnknownColumn column_name)]
         end).
Proof.
  unfold fill_single_cell. wp_step.
  destruct (column_mapping self !! column_name) as [col_index|].
  2: { wp_steps. by exists false. }
  wp_steps; try (by exists false).
  - destruct (a =? 0); wp_steps; try (by exists false).
    by exists true.
Qed.

Lemma fill_fields_spec self last_row data_dict success_count w :
  wp (fill_fields self last_row data_dict success_count) w
    (fun r _ t =>
       exists outcomes,
         length outcomes = length (mapped_items (column_mapping self) data_dict) /\
         r = Ok (success_count + count_true outcomes) /\
         field_events t =
           loop_events (mapped_items (column_mapping self) data_dict) outcomes).
Proof.
  unfold fill_fields.
  revert success_count w.
  induction data_dict as [|[field_name field_value] items IH];
    intros success_count w; cbn [for_each mapped_items].
  - wp_steps. exists []. split; [done|]. split; [f_equal; cbn; lia | done].
  - wp_step.
    pose proof (fill_single_cell_spec self last_row field_name field_value) as Hcell.
    destruct (column_mapping self !! field_name) as [col_index|] eqn:Hmap.
    + destruct (decide (is_Some (Some col_index))) as [_|[]]; [|by eexists].
      wp_step. eapply wp_mono; [apply Hcell|].
      intros r w1 t1 (b & -> & Ht1). wp_steps.
      eapply wp_mono; [apply IH|].
      intros r w2 t2 (outcomes & Hlen & -> & Ht2).
      exists (b :: outcomes). split; [cbn; lia|]. split.
      * f_equal. destruct b; cbn; lia.
      * rewrite !field_events_app, Ht1, Ht2. cbn [field_events app].
        by rewrite app_nil_r.
    + destruct (decide (is_Some (@None Z))) as [[? ?]|_]; [done|].
      wp_steps. eapply wp_mono; [apply IH|].
      intros r w2 t2 (outcomes & Hlen & -> & Ht2).
      exists outcomes. by rewrite app_nil_l.
Qed.

Lemma edit_fields_spec self row_locator data_dict success_count w :
  wp (edit_fields self row_locator data_dict success_count) w
    (fun r _ t =>
       exists outcomes,
         length outcomes = length (mapped_items (column_mapping self) data_dict) /\
         r = Ok (success_count + count_true outcomes) /\
         field_events t =
           loop_events (mapped_items (column_mapping self) data_dict) outcomes).
Proof.
  unfold edit_fields.
  revert success_count w.
  induction data_dict as [|[field_name field_value] items IH];
    intros success_count w; cbn [for_each mapped_items].
  - wp_steps. exists []. split; [done|]. split; [f_equal; cbn; lia | done].
  - wp_step.
    pose proof (fill_single_cell_spec self row_locator field_name field_value) as Hcell.
    destruct (column_mapping self !! field_name) as [col_index|] eqn:Hmap.
    + destruct (decide (is_Some (Some col_index))) as [_|[]]; [|by eexists].
      wp_steps. eapply wp_mono; [apply Hcell|].
      intros r w1 t1 (b & -> & Ht1).
      destruct b; wp_steps.
      * eapply wp_mono; [apply IH|].
        intros r w2 t2 (outcomes & Hlen & -> & Ht2).
        exists (true :: outcomes). split; [cbn; lia|]. split.
        -- f_equal. cbn. lia.
        -- rewrite !field_events_app, Ht1, Ht2. cbn [field_events app].
           by rewrite app_nil_r.
      * eapply wp_mono; [apply IH|].
        intros r w2 t2 (outcomes & Hlen & -> & Ht2).
        exists (false :: outcomes). split; [cbn; lia|]. split.
        -- f_equal.
        -- rewrite !field_events_app, Ht1, Ht2. cbn [field_events app].
           by rewrite app_nil_r.
    + destruct (decide (is_Some (@None Z))) as [[? ?]|_]; [done|].
      wp_steps. eapply wp_mono; [apply IH|].
      intros r w2 t2 (outcomes & Hlen & -> & Ht2).
      exists outcomes. by rewrite app_nil_l.
Qed.

(** A create either stops before the field loop, returning [False] without
    a field event, or runs the loop over the mapped items and judges the
    number of confirmed edits against five fields. *)
Lemma add_new_test_data_spec self test_data w :
  wp (add_new_test_data self test_data) w
    (fun r _ t =>
       (r = Ok false /\ field_events t = []) \/
       exists outcomes,
         let items := mapped_items (column_mapping self) (to_dict test_data) in
         length outcomes = length items /\
         r = Ok (4 <=? count_true outcomes) /\
         field_events t =
           loop_events items outcomes ++ [add_report (count_true outcomes)]).
Proof.
  unfold add_new_test_data. wp_steps.
  eapply wp_mono; [apply wait_for_grid_ready_spec|].
  intros [ready|e] w1 t1 Hq; [|by destruct Hq].
  destruct ready; cbn [negb]; [|wp_steps; left; field_events_done].
  wp_step. eapply wp_mono; [apply probe_buttons_spec|].
  intros [add_button|e] w2 t2 Ht2; [|wp_steps; left; field_events_done].
  wp_step.
  eapply (wp_mono _ _ (fun _ _ t => field_events t = [])).
  { destruct add_button; wp_steps; done. }
  intros [[]|e] w3 t3 Ht3; [|wp_steps; left; field_events_done].
  wp_steps; [|left; field_events_done].
  destruct (a >? 0); [|wp_steps; left; field_events_done].
  wp_steps; [|left; field_events_done].
  eapply wp_mono; [apply fill_fields_spec|].
  intros r w5 t5 (outcomes & Hlen & -> & Ht5).
  rewrite Z.add_0_l. rewrite len_to_dict.
  pose proof (count_true_bounds outcomes) as Hb.
  pose proof (mapped_items_length (column_mapping self) (to_dict test_data)) as Hm.
  destruct (rate_threshold_float (count_true outcomes)) as (q & -> & Hge).
  { unfold len in Hb. cbn [to_dict length] in Hm. lia. }
  wp_steps. rewrite Hge.
  unfold add_report.
  destruct (4 <=? count_true outcomes) eqn:E; wp_steps; right; exists outcomes;
    cbv zeta; rewrite E; (split; [done|]); (split; [done|]);
    field_events_done; by rewrite ?app_nil_r.
Qed.

(** An edit either stops before the field loop (the row was not found, or
    the driver raised), or runs the loop and judges the confirmed edits. *)
Lemma edit_test_data_spec self row_identifier test_data w :
  wp (edit_test_data self row_identifier test_data) w
    (fun r _ t =>
       (r = Ok false /\ field_events t = []) \/
       exists outcomes,
         let items := mapped_items (column_mapping self) (to_dict test_data) in
         let k := count_true outcomes in
         length outcomes = length items /\
         r = Ok ((4 <=? k) || (k >? 0)) /\
         field_events t = loop_events items outcomes ++ [edit_report k]).
Proof.
  unfold edit_test_data. wp_steps.
  eapply wp_mono; [apply find_grid_row_spec|].
  intros [found|e] w1 t1 Hq; [|by destruct Hq].
  destruct found as [row_locator|]; [|wp_steps; left; field_events_done].
  wp_steps; [|left; field_events_done].
  eapply wp_mono; [apply edit_fields_spec|].
  intros r w5 t5 (outcomes & Hlen & -> & Ht5).
  rewrite Z.add_0_l. rewrite len_to_dict.
  pose proof (count_true_bounds outcomes) as Hb.
  pose proof (mapped_items_length (column_mapping self) (to_dict test_data)) as Hm.
  destruct (rate_threshold_float (count_true outcomes)) as (q & -> & Hge).
  { unfold len in Hb. cbn [to_dict length] in Hm. lia. }
  wp_steps. rewrite Hge.
  unfold edit_report.
  destruct (4 <=? count_true outcomes) eqn:E; cbn [orb].
  - wp_steps; right; exists outcomes; cbv zeta; rewrite E;
      (split; [done|]); (split; [done|]);
      field_events_done; by rewrite ?app_nil_r.
  - destruct (count_true outcomes >? 0) eqn:E'; wp_steps; right;
      exists outcomes; cbv zeta; rewrite E, E';
      (split; [done|]); (split; [done|]);
      field_events_done; by rewrite ?app_nil_r.
Qed.

(** *** No operation lets an exception out *)

(** A [try] whose handler only logs and returns cannot raise. *)
Lemma try_except_total {A} (m : M W A) (h : Exn -> M W A) :
  (forall e w, wp (h e) w (fun r _ _ => is_ok r = true)) ->
  forall w, wp (try_except m h) w (fun r _ _ => is_ok r = true).
Proof.
  intros Hh w. apply wp_try_except.
  apply wp_intro. intros [a|e] w1 t1 _; [done|].
  eapply wp_mono; [apply Hh|]. done.
Qed.

Lemma add_new_test_data_total self test_data w :
  wp (add_new_test_data self test_data) w (fun r _ _ => is_ok r = true).
Proof. apply try_except_total. intros e w'. wp_steps. done. Qed.

Lemma edit_test_data_total self row_identifier test_data w :
  wp (edit_test_data self row_identifier test_data) w (fun r _ _ => is_ok r = true).
Proof. apply try_except_total. intros e w'. wp_steps. done. Qed.

Lemma delete_test_data_total self row_identifier w :
  wp (delete_test_data self row_identifier) w (fun r _ _ => is_ok r = true).
Proof. apply try_except_total. intros e w'. wp_steps. done. Qed.

Lemma view_test_data_total self w :
  wp (view_test_data self) w (fun r _ _ => is_ok r = true).
Proof. apply try_except_total. intros e w'. wp_steps. done. Qed.

Lemma batch_add_test_data_total self test_data_list w :
  wp (batch_add_test_data self test_data_list) w (fun r _ _ => is_ok r = true).
Proof. apply try_except_total. intros e w'. wp_steps. done. Qed.

Lemma find_grid_row_total self row_identifier w :
  wp (find_grid_row self row_identifier) w (fun r _ _ => is_ok r = true).
Proof. apply try_except_total. intros e w'. wp_steps. done. Qed.

Lemma fill_single_cell_total self row_locator column_name value w :
  wp (fill_single_cell self row_locator column_name value) w
     (fun r _ _ => is_ok r = true).
Proof. apply try_except_total. intros e w'. wp_steps. done. Qed.

(** *** The batch loop *)

Lemma enumerate_cons {A} (i : Z) (x : A) (l : list A) :
  enumerate i (x :: l) = (i, x) :: enumerate (i + 1) l.
Proof.
  unfold enumerate. cbn [length].
  rewrite seqZ_cons by lia. cbn [zip zip_with].
  do 3 f_equal; lia.
Qed.

Lemma batch_items_length self total i l w bs t w' :
  batch_items self total i l w bs t w' -> length bs = length l.
Proof. induction 1; cbn; congruence. Qed.

(** The loop of the source, which delays while [i < total], runs the items
    as [batch_items] describes when [total] is the index of the last item. *)
Lemma batch_loop_spec self total l :
  forall i success_count failed_count results w,
    i + len l = total + 1 ->
    wp (batch_loop self total (enumerate i l)
          (success_count, failed_count, results)) w
      (fun r w' t =>
         exists bs,
           batch_items self total i l w bs t w' /\
           r = Ok (success_count + count_true bs,
                   failed_count + (len bs - count_true bs),
                   results ++ batch_details i l bs)).
Proof.
  unfold batch_loop.
  induction l as [|test_data rest IH];
    intros i success_count failed_count results w Hi.
  - cbn. wp_steps. exists []. split; [constructor|].
    unfold len. cbn. rewrite app_nil_r. do 3 f_equal; lia.
  - rewrite enumerate_cons. cbn [for_each]. wp_steps.
    apply wp_intro. intros r w1 t1 Hrun.
    pose proof (add_new_test_data_total self test_data w) as Htotal.
    unfold wp in Htotal. rewrite Hrun in Htotal.
    destruct r as [b|e]; [clear Htotal|done].
    wp_step.
    assert (len (test_data :: rest) = 1 + len rest) as Hlen
      by (unfold len; cbn [length]; lia).
    eapply (wp_mono _ _ (fun r w2 t2 =>
              r = Ok tt /\ w2 = w1 /\
              t2 = match rest with [] => [] | _ :: _ => [EvSleep 1] end)).
    { destruct rest as [|x rest'].
      - replace (i <? total) with false
          by (symmetry; apply Z.ltb_ge; unfold len in *; cbn in *; lia).
        by wp_steps.
      - replace (i <? total) with true
          by (symmetry; apply Z.ltb_lt; unfold len in *; cbn [length] in *; lia).
        by wp_steps. }
    intros r w2 t2 (-> & -> & ->). wp_steps.
    destruct b; (eapply wp_mono; [apply IH; lia|]);
      intros r w3 t3 (bs & Hitems & ->);
      [exists (true :: bs) | exists (false :: bs)];
      (split;
       [ rewrite <- ?app_assoc, ?app_nil_r; cbn [app]; econstructor; eauto
       | cbn [count_true batch_details]; unfold len; cbn [length];
         rewrite <- app_assoc; cbn [app]; do 3 f_equal; lia ]).
Qed.

(** *** What the output of a create or an edit tells *)

Lemma stopped_output t :
  field_events t = [] ->
  fill_attempts t = [] /\ confirmed_edits t = 0 /\ reported_counts t = [] /\
  decided t = false /\ unknown_columns t = [].
Proof.
  intros Ht.
  rewrite <- fill_attempts_field_events, <- confirmed_edits_field_events,
    <- reported_counts_field_events, <- decided_field_events,
    <- unknown_columns_field_events, Ht.
  done.
Qed.

Lemma add_judged_output t items outcomes :
  length outcomes = length items ->
  field_events t = loop_events items outcomes ++ [add_report (count_true outcomes)] ->
  fill_attempts t = items /\
  confirmed_edits t = count_true outcomes /\
  reported_counts t = [(count_true outcomes, 5)] /\
  decided t = true /\ unknown_columns t = [].
Proof.
  intros Hlen Ht.
  rewrite <- fill_attempts_field_events, <- confirmed_edits_field_events,
    <- reported_counts_field_events, <- decided_field_events,
    <- unknown_columns_field_events, Ht.
  rewrite fill_attempts_app, confirmed_edits_app, reported_counts_app,
    decided_app, unknown_columns_app.
  rewrite loop_events_attempts, loop_events_confirmed by done.
  destruct (loop_events_reported items outcomes) as (-> & -> & ->).
  unfold add_report.
  destruct (4 <=? count_true outcomes); cbn; rewrite ?app_nil_r;
    repeat split; try done; lia.
Qed.

Lemma edit_judged_output t items outcomes :
  length outcomes = length items ->
  field_events t = loop_events items outcomes ++ [edit_report (count_true outcomes)] ->
  fill_attempts t = items /\
  confirmed_edits t = count_true outcomes /\
  reported_counts t =
    (if (4 <=? count_true outcomes) || (count_true outcomes >? 0)
     then [(count_true outcomes, 5)] else []) /\
  decided t = true /\ unknown_columns t = [].
Proof.
  intros Hlen Ht.
  rewrite <- fill_attempts_field_events, <- confirmed_edits_field_events,
    <- reported_counts_field_events, <- decided_field_events,
    <- unknown_columns_field_events, Ht.
  rewrite fill_attempts_app, confirmed_edits_app, reported_counts_app,
    decided_app, unknown_columns_app.
  rewrite loop_events_attempts, loop_events_confirmed by done.
  destruct (loop_events_reported items outcomes) as (-> & -> & ->).
  unfold edit_report.
  destruct (4 <=? count_true outcomes); destruct (count_true outcomes >? 0);
    cbn; rewrite ?app_nil_r; repeat split; try done; lia.
Qed.

(** The runs of create and edit, with the facts the claims are about. *)
Lemma add_new_test_data_run self test_data w :
  exists b w' t,
    add_new_test_data self test_data w = (Ok b, w', t) /\
    ((b = false /\ field_events t = []) \/
     exists outcomes,
       let items := mapped_items (column_mapping self) (to_dict test_data) in
       length outcomes = length items /\
       b = (4 <=? count_true outcomes) /\
       field_events t =
         loop_events items outcomes ++ [add_report (count_true outcomes)]).
Proof.
  destruct (add_new_test_data self test_data w) as [[r w'] t] eqn:Hrun.
  pose proof (wp_run _ _ _ (add_new_test_data_spec self test_data w) _ _ _ Hrun)
    as [[-> Ht] | (outcomes & Hlen & -> & Ht)].
  - exists false, w', t. split; [done|]. by left.
  - eexists _, w', t. split; [done|]. right. by exists outcomes.
Qed.

Lemma edit_test_data_run self row_identifier test_data w :
  exists b w' t,
    edit_test_data self row_identifier test_data w = (Ok b, w', t) /\
    ((b = false /\ field_events t = []) \/
     exists outcomes,
       let items := mapped_items (column_mapping self) (to_dict test_data) in
       let k := count_true outcomes in
       length outcomes = length items /\
       b = ((4 <=? k) || (k >? 0)) /\
       field_events t = loop_events items outcomes ++ [edit_report k]).
Proof.
  destruct (edit_test_data self row_identifier test_data w) as [[r w'] t] eqn:Hrun.
  pose proof (wp_run _ _ _ (edit_test_data_spec self row_identifier test_data w)
                _ _ _ Hrun)
    as [[-> Ht] | (outcomes & Hlen & -> & Ht)].
  - exists false, w', t. split; [done|]. by left.
  - eexists _, w', t. split; [done|]. right. by exists outcomes.
Qed.

Lemma total_run {A} (m : M W A) w :
  wp m w (fun r _ _ => is_ok r = true) ->
  exists a w' t, m w = (Ok a, w', t).
Proof.
  unfold wp. destruct (m w) as [[[a|e] w'] t]; [eauto | done].
Qed.

(** ** The claims about create, edit and batches *)

(** C1 (as amended).  The rate a create or an edit computes and reports is
    K/5: K confirmed cell edits over the five fields of the record, whether
    or not the mapping has them.  The division cannot raise, K is at most
    the number of attempts, and an operation that attempted no cell edit
    returns [False]. *)
Theorem success_rate_over_record_fields self test_data w :
  (forall k, is_ok (py_truediv k (len (to_dict test_data))) = true) /\
  (exists b w' t,
     add_new_test_data self test_data w = (Ok b, w', t) /\
     0 <= confirmed_edits t <= len (fill_attempts t) /\
     (decided t = true ->
        reported_counts t = [(confirmed_edits t, len (to_dict test_data))]) /\
     (fill_attempts t = [] -> b = false)) /\
  (forall row_identifier, exists b w' t,
     edit_test_data self row_identifier test_data w = (Ok b, w', t) /\
     0 <= confirmed_edits t <= len (fill_attempts t) /\
     (decided t = true ->
        reported_counts t =
          if b then [(confirmed_edits t, len (to_dict test_data))] else []) /\
     (fill_attempts t = [] -> b = false)).
Proof.
  split; [intros k; by apply py_truediv_total|]. split.
  - destruct (add_new_test_data_run self test_data w)
      as (b & w' & t & Hrun & [[-> Ht] | (outcomes & Hlen & -> & Ht)]).
    + destruct (stopped_output t Ht) as (Ha & Hc & Hr & Hd & _).
      exists false, w', t. rewrite Ha, Hc, Hd. repeat split; done.
    + destruct (add_judged_output t _ _ Hlen Ht) as (Ha & Hc & Hr & Hd & _).
      pose proof (count_true_bounds outcomes) as Hb.
      eexists _, w', t. split; [done|]. rewrite Ha, Hc, Hr.
      unfold len in *. rewrite <- Hlen.
      split; [lia|]. split; [done|].
      intros Hnil. rewrite Hnil in Hlen. destruct outcomes; done.
  - intros row_identifier.
    destruct (edit_test_data_run self row_identifier test_data w)
      as (b & w' & t & Hrun & [[-> Ht] | (outcomes & Hlen & -> & Ht)]).
    + destruct (stopped_output t Ht) as (Ha & Hc & Hr & Hd & _).
      exists false, w', t. rewrite Ha, Hc, Hd. repeat split; done.
    + destruct (edit_judged_output t _ _ Hlen Ht) as (Ha & Hc & Hr & Hd & _).
      pose proof (count_true_bounds outcomes) as Hb.
      eexists _, w', t. split; [done|]. rewrite Ha, Hc, Hr.
      unfold len in *. rewrite <- Hlen.
      split; [lia|]. split; [done|].
      intros Hnil. rewrite Hnil in Hlen. destruct outcomes; done.
Qed.





(** C6.  A batch runs the creates one after the other in list order, each
    from the state the previous one left, with a delay of one second after
    every item but the last; every item is run, whatever the earlier ones
    returned.  It reports the length of the list as total, the number of
    creates that returned [True] as success_count, the rest as
    failed_count, and success exactly when success_count is positive. *)
Theorem batch_create_runs_all_in_order self test_data_list w :
  exists bs t w' success_rate,
    batch_items self (len test_data_list) 1 test_data_list w bs t w' /\
    length bs = length test_data_list /\
    batch_add_test_data self test_data_list w =
      (Ok (BatchReport (count_true bs >? 0) (len test_data_list)
             (count_true bs) (len test_data_list - count_true bs)
             success_rate (batch_details 1 test_data_list bs)),
       w',
       EvLog INFO (MsgBatchStart (len test_data_list)) :: t ++
       [EvLog INFO (MsgBatchDone (count_true bs) (len test_data_list))]).
Proof.
  assert (wp (batch_add_test_data self test_data_list) w
            (fun r w' t =>
               exists bs t0 success_rate,
                 batch_items self (len test_data_list) 1 test_data_list w bs t0 w' /\
                 r = Ok (BatchReport (count_true bs >? 0) (len test_data_list)
                           (count_true bs) (len test_data_list - count_true bs)
                           success_rate (batch_details 1 test_data_list bs)) /\
                 t = EvLog INFO (MsgBatchStart (len test_data_list)) :: t0 ++
                     [EvLog INFO (MsgBatchDone (count_true bs)
                                    (len test_data_list))])) as Hwp.
  { unfold batch_add_test_data. wp_steps.
    eapply wp_mono; [apply batch_loop_spec; lia|].
    intros r w1 t1 (bs & Hitems & ->).
    pose proof (batch_items_length _ _ _ _ _ _ _ _ Hitems) as Hlen.
    rewrite !Z.add_0_l, app_nil_l.
    replace (len bs - count_true bs) with (len test_data_list - count_true bs)
      by (unfold len; lia).
    destruct test_data_list as [|x l].
    - wp_steps. exists bs, t1, (PyInt 0). rewrite !app_nil_r. done.
    - wp_step. unfold py_truediv.
      destruct (Z.eqb_spec (len (x :: l)) 0) as [Hz|_];
        [unfold len in Hz; cbn in Hz; lia|].
      wp_steps. eexists bs, t1, _. rewrite !app_nil_r, ?app_nil_l. done. }
  unfold wp in Hwp.
  destruct (batch_add_test_data self test_data_list w) as [[r w'] t].
  destruct Hwp as (bs & t0 & success_rate & Hitems & -> & ->).
  exists bs, t0, w', success_rate. split; [done|]. split; [|done].
  by eapply batch_items_length.
Qed.

(** C9.  Under every driver and from every page state, create, edit,
    delete, view and batch create return a value: no exception of the
    driver or of the code reaches the caller. *)
Theorem operations_never_raise self w :
  (forall test_data,
     exists b w' t, add_new_test_data self test_data w = (Ok b, w', t)) /\
  (forall row_identifier test_data,
     exists b w' t,
       edit_test_data self row_identifier test_data w = (Ok b, w', t)) /\
  (forall row_identifier,
     exists b w' t, delete_test_data self row_identifier w = (Ok b, w', t)) /\
  (exists result w' t, view_test_data self w = (Ok result, w', t)) /\
  (forall test_data_list,
     exists result w' t,
       batch_add_test_data self test_data_list w = (Ok result, w', t)).
Proof.
  repeat split; intros; apply total_run.
  - apply add_new_test_data_total.
  - apply edit_test_data_total.
  - apply delete_test_data_total.
  - apply view_test_data_total.
  - apply batch_add_test_data_total.
Qed.

End AnyDriver.

(** ** Row resolution on a static page *)

Section OnStaticPage.

Import StaticPage.

Implicit Types (self : MMT010Automation) (p : Page).

Lemma len_nil_iff {A} (l : list A) : len l = 0 <-> l = [].
Proof. unfold len. destruct l; cbn; split; (done || lia). Qed.

(** An index at or beyond the end selects nothing. *)
Lemma query_nth_beyond {A} (l : list A) (i : Z) :
  len l <= i -> query_nth l i = [].
Proof.
  intros Hi. unfold query_nth, js_slice.
  pose proof (Zle_0_nat (length l)) as Hpos. fold (len l) in Hpos.
  destruct (Z.eqb_spec i (-1)) as [->|_]; [lia|].
  destruct (Z.ltb_spec i 0) as [?|_]; [lia|].
  destruct (Z.ltb_spec (i + 1) 0) as [?|_]; [lia|].
  replace (Z.min (i + 1) (len l) - Z.min i (len l)) with 0 by lia.
  done.
Qed.

(** The index -1 selects the last element. *)
Lemma query_nth_minus_one {A} (l : list A) (x : A) :
  query_nth (l ++ [x]) (-1) = [x].
Proof.
  unfold query_nth, js_slice. rewrite Z.eqb_refl.
  assert (len (l ++ [x]) = len l + 1) as ->
    by (unfold len; rewrite length_app; cbn; lia).
  pose proof (Zle_0_nat (length l)) as Hpos. fold (len l) in Hpos.
  replace (len l + 1 - 1) with (len l) by lia.
  destruct (Z.ltb_spec (len l) 0) as [?|_]; [lia|].
  destruct (Z.ltb_spec (len l + 1) 0) as [?|_]; [lia|].
  replace (Z.min (len l + 1) (len l + 1) - Z.min (len l) (len l + 1)) with 1 by lia.
  replace (Z.to_nat (Z.min (len l) (len l + 1))) with (length l)
    by (unfold len; lia).
  by rewrite drop_app_length.
Qed.

Lemma wait_for_grid_ready_visible self p :
  grid_visible self p ->
  wait_for_grid_ready self p =
    (Ok true, p, [EvLog INFO MsgGridWaiting; EvSleep 2; EvLog INFO MsgGridReady]).
Proof.
  intros [g Hg].
  unfold wait_for_grid_ready, try_except, bind, call, log, sleep, ret.
  cbn [wait_for static_driver]. unfold act. rewrite Hg. done.
Qed.

Lemma wait_for_grid_ready_hidden self p e :
  strict_target p (grid_container self) = Raise e ->
  wait_for_grid_ready self p =
    (Ok false, p, [EvLog INFO MsgGridWaiting; EvLog ERROR (MsgGridWaitFailed e)]).
Proof.
  intros Hg.
  unfold wait_for_grid_ready, try_except, bind, call, log, sleep, ret.
  cbn [wait_for static_driver]. unfold act. rewrite Hg. done.
Qed.

(** Row resolution by ordinal: the row at index [n - 1] of the driver's
    [nth], when there is one. *)
Lemma find_grid_row_by_index self p n :
  grid_visible self p ->
  exists t,
    find_grid_row self (RowInt n) p =
      (Ok (if len (query_nth (rendered_rows self p) (n - 1)) >? 0
           then Some (nth (data_rows self) (n - 1)) else None), p, t).
Proof.
  intros Hg.
  unfold find_grid_row, try_except. unfold bind at 1.
  rewrite (wait_for_grid_ready_visible _ _ Hg). cbn [negb].
  unfold bind, call, log, ret. cbn [count static_driver resolve].
  fold (rendered_rows self p).
  destruct (len (query_nth (rendered_rows self p) (n - 1)) >? 0); eauto.
Qed.

(** Row resolution by text: the first row the driver's [has_text] filter
    keeps, when there is one. *)
Lemma find_grid_row_by_text self p s :
  grid_visible self p ->
  exists t,
    find_grid_row self (RowStr s) p =
      (Ok (match filter (fun e => has_text s e = true) (rendered_rows self p) with
           | [] => None
           | _ :: _ => Some (first (filter_has_text (data_rows self) s))
           end), p, t).
Proof.
  intros Hg.
  unfold find_grid_row, try_except. unfold bind at 1.
  rewrite (wait_for_grid_ready_visible _ _ Hg). cbn [negb].
  unfold bind, call, log, ret. cbn [count static_driver resolve].
  fold (rendered_rows self p).
  destruct (filter _ (rendered_rows self p)) as [|r rs]; cbn; eauto.
Qed.

Lemma find_grid_row_grid_hidden self p row_identifier e :
  strict_target p (grid_container self) = Raise e ->
  exists t, find_grid_row self row_identifier p = (Ok None, p, t).
Proof.
  intros Hg.
  unfold find_grid_row, try_except. unfold bind at 1.
  rewrite (wait_for_grid_ready_hidden _ _ _ Hg). cbn [negb].
  unfold ret. eauto.
Qed.

Lemma grid_visible_or_hidden self p :
  grid_visible self p \/
  exists e, strict_target p (grid_container self) = Raise e.
Proof.
  unfold grid_visible.
  destruct (strict_target p (grid_container self)) as [g|e]; eauto.
Qed.

Lemma filter_first_match {A} (P : A -> bool) (before after : list A) (r : A) :
  Forall (fun x => P x = false) before ->
  P r = true ->
  filter (fun x => P x = true) (before ++ r :: after) =
    r :: filter (fun x => P x = true) after.
Proof.
  intros Hbefore Hr. induction Hbefore as [|x before Hx _ IH]; cbn [app].
  - by rewrite filter_cons_True.
  - rewrite filter_cons_False; [done|]. by rewrite Hx.
Qed.

Lemma filter_no_match {A} (P : A -> bool) (l : list A) :
  Forall (fun x => P x = false) l -> filter (fun x => P x = true) l = [].
Proof.
  induction 1 as [|x l Hx _ IH]; [done|].
  rewrite filter_cons_False; [done|]. by rewrite Hx.
Qed.

(** C7.  An ordinal beyond the rendered rows resolves to [None]: on every
    page of the static driver the result is [None] and the page is left as
    it was; and under every driver the resolution returns a value, not an
    exception. *)
Theorem ordinal_beyond_rows_not_found self p n :
  len (rendered_rows self p) < n ->
  (exists t, find_grid_row self (RowInt n) p = (Ok None, p, t)) /\
  (forall (W : Type) (D : Driver W) (w : W),
     exists found w' t, find_grid_row self (RowInt n) w = (Ok found, w', t)).
Proof.
  intros Hn. split.
  - destruct (grid_visible_or_hidden self p) as [Hg|[e He]].
    + destruct (find_grid_row_by_index self p n Hg) as [t Ht].
      rewrite query_nth_beyond in Ht by lia. eauto.
    + eapply find_grid_row_grid_hidden; eauto.
  - intros W D w. apply total_run, find_grid_row_total.
Qed.

(** C10.  In a visible grid with at least one rendered row, the ordinal 0
    resolves to a row, the last one: the index 0 - 1 = -1 handed to the
    driver's [nth] selects the final element. *)
Theorem ordinal_zero_resolves_last_row self p r :
  grid_visible self p ->
  last (rendered_rows self p) = Some r ->
  exists t,
    find_grid_row self (RowInt 0) p =
      (Ok (Some (nth (data_rows self) (-1))), p, t) /\
    resolve p (nth (data_rows self) (-1)) = [r].
Proof.
  intros Hg Hlast.
  apply last_Some in Hlast as [rows Hrows].
  destruct (find_grid_row_by_index self p 0 Hg) as [t Ht].
  change (0 - 1) with (-1) in Ht.
  rewrite Hrows, query_nth_minus_one in Ht. cbn in Ht.
  exists t. split; [done|].
  cbn [resolve]. fold (rendered_rows self p).
  by rewrite Hrows, query_nth_minus_one.
Qed.

(** C8 (as amended).  In a visible grid a text reference resolves to the
    first row, in rendered order, that the driver's [has_text] filter keeps
    (a substring match that ignores case and runs of white space); when the
    filter keeps no row the result is [None]. *)
Theorem text_reference_resolves_first_filter_match self p s :
  grid_visible self p ->
  (forall before r after,
     rendered_rows self p = before ++ r :: after ->
     Forall (fun x => has_text s x = false) before ->
     has_text s r = true ->
     exists t,
       find_grid_row self (RowStr s) p =
         (Ok (Some (first (filter_has_text (data_rows self) s))), p, t) /\
       resolve p (first (filter_has_text (data_rows self) s)) = [r]) /\
  (Forall (fun x => has_text s x = false) (rendered_rows self p) ->
   exists t, find_grid_row self (RowStr s) p = (Ok None, p, t)).
Proof.
  intros Hg. destruct (find_grid_row_by_text self p s Hg) as [t Ht]. split.
  - intros before r after Hrows Hbefore Hr.
    rewrite Hrows, (filter_first_match (has_text s)) in Ht by done.
    exists t. split; [done|].
    cbn [resolve]. fold (rendered_rows self p).
    by rewrite Hrows, (filter_first_match (has_text s)).
  - intros Hnone. rewrite (filter_no_match (has_text s)) in Ht by done. eauto.
Qed.

End OnStaticPage.

(** ** Runs on concrete pages *)

Section Examples.

Import StaticPage.

(** On a grid whose cells all open an editor, a create with the default
    mapping confirms the five fields. *)
Example create_all_fields_example :
  exists w' t,
    add_new_test_data default_automation sample_data two_rows = (Ok true, w', t) /\
    decided t = true /\
    fill_attempts t =
      [ ("料號", 1, "AB-1234"); ("站位", 2, "FT"); ("版本", 3, "V1.0.0");
        ("描述", 4, "sample"); ("MFGID群組", 5, "DEFAULT") ] /\
    confirmed_edits t = 5 /\
    reported_counts t = [(5, 5)].
Proof. eexists _, _. split; [vm_compute; reflexivity|]. by vm_compute. Qed.

(** One confirmed field out of five: the edit returns [True], the create
    [False]. *)
Example one_confirmed_of_five_example :
  (exists w' t,
     edit_test_data default_automation (RowInt 1) sample_data one_editable_cell
       = (Ok true, w', t) /\
     length (fill_attempts t) = 5%nat /\ confirmed_edits t = 1) /\
  (exists w' t,
     add_new_test_data default_automation sample_data one_editable_cell
       = (Ok false, w', t) /\
     length (fill_attempts t) = 5%nat /\ confirmed_edits t = 1).
Proof.
  split; (eexists _, _; split; [vm_compute; reflexivity|]; by vm_compute).
Qed.

(** A batch of three whose second create finds the grid not ready: total 3,
    two successes, one failure, overall success, the three items in
    order. *)
Example batch_of_three_example :
  exists w' t success_rate,
    batch_add_test_data default_automation
      [sample_data; sample_data; sample_data]
      (Scripted.mkScript [true; false; true]) =
      (Ok (BatchReport true 3 2 1 success_rate
             [ mkBatchDetail 1 "success" (to_dict sample_data);
               mkBatchDetail 2 "failed" (to_dict sample_data);
               mkBatchDetail 3 "success" (to_dict sample_data) ]),
       w', t) /\
    List.filter is_batch_mark t =
      [ EvLog INFO (MsgBatchItem 1 3); EvLog INFO MsgAddStart;
        EvLog INFO (MsgAddDone 5 5);
        EvLog INFO (MsgBatchItem 2 3); EvLog INFO MsgAddStart;
        EvLog ERROR (MsgGridWaitFailed (PlaywrightTimeoutError "Timeout exceeded"));
        EvLog INFO (MsgBatchItem 3 3); EvLog INFO MsgAddStart;
        EvLog INFO (MsgAddDone 5 5) ].
Proof. eexists _, _, _. split; [vm_compute; reflexivity|]. by vm_compute. Qed.

End Examples.

(** ** Instances and counterexamples *)

Section Instances.

Import StaticPage.

(** C1 as stated fails: without a column for MFGID群組 a create attempts
    four cell edits and confirms the four, yet it computes and reports
    4/5, not 4/4. *)
Lemma rate_counts_unmapped_field_counterexample :
  exists w' t,
    add_new_test_data automation_without_group sample_data two_rows
      = (Ok true, w', t) /\
    len (fill_attempts t) = 4 /\
    confirmed_edits t = 4 /\
    reported_counts t = [(4, 5)] /\
    ~ (rate 4 5 == rate (confirmed_edits t) (len (fill_attempts t)))%Q.
Proof.
  eexists _, _. split; [vm_compute; reflexivity|].
  do 3 (split; [by vm_compute|]).
  vm_compute. discriminate.
Qed.

(** C8 as stated fails: the reference "P-002" resolves to the row whose
    text is "p-002 PT V2.0.0 second G2", although no rendered row contains
    "P-002" as a case-sensitive substring. *)
Lemma text_match_ignores_case_counterexample :
  exists t r,
    find_grid_row default_automation (RowStr "P-002") two_rows =
      (Ok (Some (first (filter_has_text (data_rows default_automation) "P-002"))),
       two_rows, t) /\
    resolve two_rows (first (filter_has_text (data_rows default_automation) "P-002"))
      = [r] /\
    el_text r = "p-002 PT V2.0.0 second G2" /\
    Forall (fun x => includes "P-002" (el_text x) = false)
           (rendered_rows default_automation two_rows).
Proof.
  eexists _, _. split; [vm_compute; reflexivity|].
  split; [vm_compute; reflexivity|]. split; [reflexivity|].
  vm_compute. repeat constructor.
Qed.



(** C7 at ordinal 3 on a grid of two rows. *)
Lemma ordinal_beyond_rows_witness :
  len (rendered_rows default_automation two_rows) < 3 /\
  exists t,
    find_grid_row default_automation (RowInt 3) two_rows = (Ok None, two_rows, t).
Proof.
  split; [reflexivity|].
  apply (ordinal_beyond_rows_not_found default_automation two_rows 3).
  reflexivity.
Defined.

(** C10 on a grid of two rows: ordinal 0 resolves to the second row. *)
Lemma ordinal_zero_witness :
  exists t r,
    find_grid_row default_automation (RowInt 0) two_rows =
      (Ok (Some (nth (data_rows default_automation) (-1))), two_rows, t) /\
    resolve two_rows (nth (data_rows default_automation) (-1)) = [r] /\
    el_text r = "p-002 PT V2.0.0 second G2".
Proof.
  destruct (ordinal_zero_resolves_last_row default_automation two_rows
              (data_row (fun _ => true) ["p-002"; "PT"; "V2.0.0"; "second"; "G2"]))
    as (t & Hrun & Hrow).
  - eexists. vm_compute. reflexivity.
  - vm_compute. reflexivity.
  - eexists t, _. split; [exact Hrun|]. split; [exact Hrow|]. reflexivity.
Defined.

(** C8 (as amended) on a grid of two rows: "P-002" resolves to the second
    row, the first one the filter keeps. *)
Lemma text_reference_witness :
  grid_visible default_automation two_rows /\
  exists t r,
    find_grid_row default_automation (RowStr "P-002") two_rows =
      (Ok (Some (first (filter_has_text (data_rows default_automation) "P-002"))),
       two_rows, t) /\
    resolve two_rows (first (filter_has_text (data_rows default_automation) "P-002"))
      = [r] /\
    el_text r = "p-002 PT V2.0.0 second G2".
Proof.
  assert (grid_visible default_automation two_rows) as Hg
    by (eexists; vm_compute; reflexivity).
  split; [exact Hg|].
  destruct (text_reference_resolves_first_filter_match
              default_automation two_rows "P-002" Hg) as [Hfirst _].
  destruct (Hfirst
              [data_row (fun _ => true) ["P-001"; "FT"; "V1.0.0"; "first"; "G1"]]
              (data_row (fun _ => true) ["p-002"; "PT"; "V2.0.0"; "second"; "G2"])
              [])
    as (t & Hrun & Hrow).
  - vm_compute. reflexivity.
  - repeat constructor.
  - vm_compute. reflexivity.
  - eexists t, _. split; [exact Hrun|]. split; [exact Hrow|]. reflexivity.
Defined.

End Instances.

(** * Further properties of the grid operations *)

Section MoreOnStaticPage.

Import StaticPage.

Implicit Types (self : MMT010Automation) (p : Page).

(** An index inside the list selects the element at that index. *)
Lemma query_nth_inside {A} (l : list A) (i : Z) (x : A) :
  0 <= i -> l !! Z.to_nat i = Some x -> query_nth l i = [x].
Proof.
  intros Hi Hx. unfold query_nth, js_slice.
  pose proof (lookup_lt_Some _ _ _ Hx) as Hlt.
  destruct (Z.eqb_spec i (-1)) as [->|_]; [lia|].
  destruct (Z.ltb_spec i 0) as [?|_]; [lia|].
  destruct (Z.ltb_spec (i + 1) 0) as [?|_]; [lia|].
  unfold len.
  replace (Z.min (i + 1) (Z.of_nat (length l)) - Z.min i (Z.of_nat (length l)))
    with 1 by lia.
  replace (Z.min i (Z.of_nat (length l))) with i by lia.
  rewrite (drop_S _ _ _ Hx). done.
Qed.

(** X1.  In a visible grid an ordinal between 1 and the number of rendered
    rows resolves to the row at that position, counted from 1. *)
Theorem ordinal_in_range_resolves_that_row self p n r :
  grid_visible self p ->
  1 <= n ->
  rendered_rows self p !! Z.to_nat (n - 1) = Some r ->
  exists t,
    find_grid_row self (RowInt n) p =
      (Ok (Some (nth (data_rows self) (n - 1))), p, t) /\
    resolve p (nth (data_rows self) (n - 1)) = [r].
Proof.
  intros Hg Hn Hr.
  destruct (find_grid_row_by_index self p n Hg) as [t Ht].
  rewrite (query_nth_inside _ _ r) in Ht by (done || lia). cbn in Ht.
  exists t. split; [done|].
  cbn [resolve]. fold (rendered_rows self p).
  by rewrite (query_nth_inside _ _ r) by (done || lia).
Qed.

End MoreOnStaticPage.

(** X1 at ordinal 2 on a grid of two rows. *)
Lemma ordinal_in_range_witness :
  exists t r,
    find_grid_row default_automation (RowInt 2) two_rows =
      (Ok (Some (nth (data_rows default_automation) (2 - 1))), two_rows, t) /\
    StaticPage.resolve two_rows (nth (data_rows default_automation) (2 - 1)) = [r] /\
    StaticPage.el_text r = "p-002 PT V2.0.0 second G2".
Proof.
  destruct (ordinal_in_range_resolves_that_row default_automation two_rows 2
              (StaticPage.data_row (fun _ => true)
                 ["p-002"; "PT"; "V2.0.0"; "second"; "G2"]))
    as (t & Hrun & Hrow).
  - eexists. vm_compute. reflexivity.
  - lia.
  - vm_compute. reflexivity.
  - eexists t, _. split; [exact Hrun|]. split; [exact Hrow|]. reflexivity.
Defined.

Section MoreOnAnyDriver.

Context {W : Type} `{Driver W}.

Implicit Types (self : MMT010Automation) (w : W) (t : list Event).

Lemma wait_for_grid_ready_fails self w e w1 :
  wait_for (grid_container self) "visible"
    (Config.element_timeout (config self)) w = (Raise e, w1) ->
  wait_for_grid_ready self w =
    (Ok false, w1, [EvLog INFO MsgGridWaiting; EvLog ERROR (MsgGridWaitFailed e)]).
Proof.
  intros Hwait.
  unfold wait_for_grid_ready, try_except, bind, call, log, ret.
  by rewrite Hwait.
Qed.

(** X2.  When the wait for the grid container fails, every operation gives
    up at once: row resolution returns [None], create, edit and delete
    return [False], the grid information and the view are failures, and the
    page state is the one the failed wait left, so no other driver call
    was made. *)
Theorem grid_not_ready_aborts self w e w1 :
  wait_for (grid_container self) "visible"
    (Config.element_timeout (config self)) w = (Raise e, w1) ->
  let t0 := [EvLog INFO MsgGridWaiting; EvLog ERROR (MsgGridWaitFailed e)] in
  (forall row_identifier,
     find_grid_row self row_identifier w = (Ok None, w1, t0)) /\
  (forall test_data,
     add_new_test_data self test_data w =
       (Ok false, w1, EvLog INFO MsgAddStart :: t0)) /\
  (forall row_identifier test_data,
     edit_test_data self row_identifier test_data w =
       (Ok false, w1,
        EvLog INFO (MsgEditStart row_identifier) :: t0 ++
        [EvLog ERROR (MsgRowNotFound row_identifier)])) /\
  (forall row_identifier,
     delete_test_data self row_identifier w =
       (Ok false, w1,
        EvLog INFO (MsgDeleteStart row_identifier) :: t0 ++
        [EvLog ERROR (MsgRowNotFound row_identifier)])) /\
  get_grid_info self w = (Ok (GridInfoNotReady "表格未準備就緒"), w1, t0) /\
  view_test_data self w =
    (Ok (ViewFailure "表格未準備就緒"), w1, EvLog INFO MsgViewStart :: t0).
Proof.
  intros Hwait t0.
  pose proof (wait_for_grid_ready_fails self w e w1 Hwait) as Hready.
  assert (forall row_identifier,
            find_grid_row self row_identifier w = (Ok None, w1, t0)) as Hfind.
  { intros row_identifier. unfold find_grid_row, try_except. unfold bind at 1.
    by rewrite Hready. }
  assert (get_grid_info self w = (Ok (GridInfoNotReady "表格未準備就緒"), w1, t0))
    as Hinfo.
  { unfold get_grid_info, try_except. unfold bind at 1. by rewrite Hready. }
  split; [done|]. split; [|split; [|split; [|split; [done|]]]].
  - intros test_data. unfold add_new_test_data, try_except.
    unfold bind at 1, log at 1. unfold bind at 1. by rewrite Hready.
  - intros row_identifier test_data. unfold edit_test_data, try_except.
    unfold bind at 1, log at 1. unfold bind at 1. by rewrite Hfind.
  - intros row_identifier. unfold delete_test_data, try_except.
    unfold bind at 1, log at 1. unfold bind at 1. by rewrite Hfind.
  - unfold view_test_data, try_except.
    unfold bind at 1, log at 1. unfold bind at 1. by rewrite Hinfo.
Qed.


End MoreOnAnyDriver.

Lemma delete_events_app (t1 t2 : list Event) :
  delete_events (t1 ++ t2) = delete_events t1 ++ delete_events t2.
Proof. apply List.filter_app. Qed.


Section DeleteOutcome.

Context {W : Type} `{Driver W}.

Implicit Types (self : MMT010Automation) (w : W) (t : list Event).





End DeleteOutcome.

Section BatchRate.

Context {W : Type} `{Driver W}.

Implicit Types (self : MMT010Automation) (w : W) (t : list Event).

(** X5.  The success rate of a batch is the integer 0 for the empty list,
    where nothing is divided, and otherwise the float quotient of the
    success count by the length of the list; the success and failure
    counts are not negative and add up to the total.  An empty batch
    reports no success and leaves the page state untouched. *)
Theorem batch_success_rate self test_data_list w :
  exists success success_count failed_count details w' t,
    batch_add_test_data self test_data_list w =
      (Ok (BatchReport success (len test_data_list) success_count failed_count
             match test_data_list with
             | [] => PyInt 0
             | _ :: _ =>
                 PyFloat (PrimFloat.div (float_of_Z success_count)
                            (float_of_Z (len test_data_list)))
             end
             details),
       w', t) /\
    0 <= success_count /\ 0 <= failed_count /\
    success_count + failed_count = len test_data_list /\
    (test_data_list = [] -> success = false /\ details = [] /\ w' = w).
Proof.
  assert (wp (batch_add_test_data self test_data_list) w
            (fun r w' t =>
               exists bs t0,
                 batch_items self (len test_data_list) 1 test_data_list w bs t0 w' /\
                 r = Ok (BatchReport (count_true bs >? 0) (len test_data_list)
                           (count_true bs) (len test_data_list - count_true bs)
                           match test_data_list with
                           | [] => PyInt 0
                           | _ :: _ =>
                               PyFloat (PrimFloat.div (float_of_Z (count_true bs))
                                          (float_of_Z (len test_data_list)))
                           end
                           (batch_details 1 test_data_list bs)))) as Hwp.
  { unfold batch_add_test_data. wp_steps.
    eapply wp_mono; [apply batch_loop_spec; lia|].
    intros r w1 t1 (bs & Hitems & ->).
    pose proof (batch_items_length _ _ _ _ _ _ _ _ Hitems) as Hlen.
    rewrite !Z.add_0_l, app_nil_l.
    replace (len bs - count_true bs) with (len test_data_list - count_true bs)
      by (unfold len; lia).
    destruct test_data_list as [|x l].
    - wp_steps. by exists bs, t1.
    - wp_step. unfold py_truediv.
      destruct (Z.eqb_spec (len (x :: l)) 0) as [Hz|_];
        [unfold len in Hz; cbn in Hz; lia|].
      wp_steps. by exists bs, t1. }
  unfold wp in Hwp.
  destruct (batch_add_test_data self test_data_list w) as [[r w'] t].
  destruct Hwp as (bs & t0 & Hitems & ->).
  pose proof (batch_items_length _ _ _ _ _ _ _ _ Hitems) as Hlen.
  pose proof (count_true_bounds bs) as Hb.
  eexists _, _, _, _, w', t. split; [done|].
  unfold len in *.
  split; [lia|]. split; [lia|]. split; [lia|].
  intros ->. inversion Hitems; subst. done.
Qed.

End BatchRate.

Section PreviewBounds.

Context {W : Type} `{Driver W}.

Implicit Types (self : MMT010Automation) (w : W) (t : list Event).

(** A loop whose body appends one element that satisfies [P] appends as
    many elements as it has iterations, all satisfying [P]. *)
Lemma for_each_appends {A B} (P : B -> Prop) (l : list A)
    (body : A -> list B -> M W (list B)) :
  (forall x acc w,
     wp (body x acc) w (fun r _ _ => exists y, r = Ok (acc ++ [y]) /\ P y)) ->
  forall acc w,
    wp (for_each l acc body) w
      (fun r _ _ =>
         exists ys, r = Ok (acc ++ ys) /\ length ys = length l /\ Forall P ys).
Proof.
  intros Hbody. induction l as [|x l IH]; intros acc w; cbn [for_each].
  - wp_steps. exists []. by rewrite app_nil_r.
  - wp_step. eapply wp_mono; [apply Hbody|].
    intros r w1 t1 (y & -> & Hy).
    eapply wp_mono; [apply IH|].
    intros r w2 t2 (ys & -> & Hlen & Hys).
    exists (y :: ys). rewrite <- app_assoc. cbn. auto.
Qed.

Lemma length_range (n : Z) : length (range n) = Z.to_nat n.
Proof. apply length_seqZ. Qed.

Lemma get_grid_info_spec self w :
  wp (get_grid_info self) w
    (fun r _ _ =>
       exists g, r = Ok g /\
         match g with
         | GridInfoReady _ headers => (length headers <= 6)%nat
         | GridInfoNotReady error => error = "表格未準備就緒"
         | GridInfoError _ => True
         end).
Proof.
  unfold get_grid_info. wp_steps.
  eapply wp_mono; [apply wait_for_grid_ready_spec|].
  intros [ready|e] w1 t1 Hq; [|by destruct Hq].
  destruct ready; cbn [negb]; [|wp_steps; by eexists].
  wp_steps; try (by eexists).
  destruct (a0 >? 0).
  - wp_steps; try (by eexists).
    eapply wp_mono.
    { apply (for_each_appends (fun _ => True)).
      intros i acc wi. wp_steps.
      - destruct a2 as [[|c s]|]; wp_steps; eauto.
      - eauto. }
    intros r w2 t2 (hs & -> & Hlen & _). wp_steps.
    eexists. split; [done|]. cbn [app].
    rewrite Hlen, length_range. lia.
  - wp_steps. eexists. split; [done|]. cbn. lia.
Qed.

(** X6.  The grid information is a value under every driver: either the
    grid was not ready, or a failure with the text of the exception, or a
    row count with at most six headers. *)
Theorem grid_info_has_at_most_six_headers self w :
  exists g w' t,
    get_grid_info self w = (Ok g, w', t) /\
    match g with
    | GridInfoReady _ headers => (length headers <= 6)%nat
    | GridInfoNotReady error => error = "表格未準備就緒"
    | GridInfoError _ => True
    end.
Proof.
  destruct (get_grid_info self w) as [[r w'] t] eqn:Hrun.
  pose proof (wp_run _ _ _ (get_grid_info_spec self w) _ _ _ Hrun)
    as (g & -> & Hg).
  by exists g, w', t.
Qed.

(** X7.  A view returns a value under every driver.  When it reports data,
    the row count is not 0, the preview holds the first min(row count, 10)
    rows and no more, preview_count is the number of previewed rows, every
    previewed row has at most six cells and there are at most six headers;
    an empty grid is reported with at most six headers. *)
Theorem view_preview_is_bounded self w :
  exists v w' t,
    view_test_data self w = (Ok v, w', t) /\
    match v with
    | ViewFailure _ => True
    | ViewEmpty headers => (length headers <= 6)%nat
    | ViewData row_count headers preview_count data =>
        row_count <> 0 /\
        (length headers <= 6)%nat /\
        preview_count = len data /\
        length data = Z.to_nat (Z.min row_count 10) /\
        (length data <= 10)%nat /\
        Forall (fun row_data => (length row_data <= 6)%nat) data
    end.
Proof.
  assert (wp (view_test_data self) w
            (fun r _ _ =>
               exists v, r = Ok v /\
                 match v with
                 | ViewFailure _ => True
                 | ViewEmpty headers => (length headers <= 6)%nat
                 | ViewData row_count headers preview_count data =>
                     row_count <> 0 /\
                     (length headers <= 6)%nat /\
                     preview_count = len data /\
                     length data = Z.to_nat (Z.min row_count 10) /\
                     (length data <= 10)%nat /\
                     Forall (fun row_data => (length row_data <= 6)%nat) data
                 end)) as Hwp.
  { unfold view_test_data. wp_steps.
    eapply wp_mono; [apply get_grid_info_spec|].
    intros r w1 t1 (g & -> & Hg).
    destruct g as [error|row_count headers|error];
      [wp_steps; by eexists| |wp_steps; by eexists].
    destruct (Z.eqb_spec row_count 0) as [->|Hrc]; [wp_steps; by eexists|].
    wp_step.
    eapply wp_mono.
    { apply (for_each_appends (fun row_data => (length row_data <= 6)%nat)).
      intros i acc wi. wp_steps.
      - eapply wp_mono.
        { apply (for_each_appends (fun _ => True)).
          intros j row_data wj. wp_steps.
          - destruct a0 as [[|c s]|]; wp_steps; eauto.
          - eauto. }
        intros r w2 t2 (cells & -> & Hlen & _). wp_steps.
        eexists. split; [done|]. cbn [app].
        rewrite Hlen, length_range. lia.
      - eexists. split; [done|]. by rewrite length_replicate. }
    intros r w2 t2 (rows & -> & Hlen & Hrows). wp_steps.
    eexists. split; [done|]. cbn [app].
    rewrite Hlen, length_range. repeat split; (done || lia). }
  unfold wp in Hwp.
  destruct (view_test_data self w) as [[r w'] t].
  destruct Hwp as (v & -> & Hv). by exists v, w', t.
Qed.

End PreviewBounds.

Section ViewOnStaticPage.

Import StaticPage.

Implicit Types (self : MMT010Automation) (p : Page).

Lemma wp_static_count l p (Q : Res Z -> Page -> list Event -> Prop) :
  Q (Ok (len (resolve p l))) p [] -> wp (call (count l)) p Q.
Proof. done. Qed.

Lemma wp_static_text_content l p
    (Q : Res (option string) -> Page -> list Event -> Prop) :
  (forall r, Q r p []) -> wp (call (text_content l)) p Q.
Proof.
  intros HQ. unfold wp, call. cbn [text_content static_driver].
  destruct (strict_target p l); apply HQ.
Qed.

Lemma wp_static_grid_ready self p (Q : Res bool -> Page -> list Event -> Prop) :
  grid_visible self p ->
  Q (Ok true) p [EvLog INFO MsgGridWaiting; EvSleep 2; EvLog INFO MsgGridReady] ->
  wp (wait_for_grid_ready self) p Q.
Proof.
  intros Hg HQ. unfold wp. by rewrite (wait_for_grid_ready_visible _ _ Hg).
Qed.

(** On a static page a loop whose body appends one element and leaves the
    page alone appends one element per iteration and leaves the page
    alone. *)
Lemma for_each_static {A B} (P : B -> Prop) (l : list A)
    (body : A -> list B -> M Page (list B)) p :
  (forall x acc,
     wp (body x acc) p
        (fun r p' _ => p' = p /\ exists y, r = Ok (acc ++ [y]) /\ P y)) ->
  forall acc,
    wp (for_each l acc body) p
      (fun r p' _ =>
         p' = p /\
         exists ys, r = Ok (acc ++ ys) /\ length ys = length l /\ Forall P ys).
Proof.
  intros Hbody. induction l as [|x l IH]; intros acc; cbn [for_each].
  - wp_steps. split; [done|]. exists []. by rewrite app_nil_r.
  - wp_step. eapply wp_mono; [apply Hbody|].
    intros r p1 t1 (-> & y & -> & Hy).
    eapply wp_mono; [apply IH|].
    intros r p2 t2 (-> & ys & -> & Hlen & Hys).
    split; [done|]. exists (y :: ys). rewrite <- app_assoc. cbn. auto.
Qed.

Lemma get_grid_info_static self p :
  grid_visible self p ->
  wp (get_grid_info self) p
    (fun r p' _ =>
       p' = p /\
       exists headers,
         r = Ok (GridInfoReady (len (rendered_rows self p)) headers) /\
         (length headers <= 6)%nat).
Proof.
  intros Hg. unfold get_grid_info. wp_steps.
  apply wp_static_grid_ready; [done|]. cbn [negb].
  wp_step. apply wp_static_count. fold (rendered_rows self p).
  wp_step. apply wp_static_count. wp_step.
  destruct (len (resolve p (header_row self)) >? 0).
  - wp_step. apply wp_static_count.
    eapply wp_mono.
    { apply (for_each_static (fun _ => True)).
      intros i acc. wp_step. wp_step. apply wp_static_text_content.
      intros [[[|c s]|]|e]; wp_steps; eauto. }
    intros r p1 t1 (-> & hs & -> & Hlen & _). wp_steps.
    split; [done|]. eexists. split; [done|]. cbn [app].
    rewrite Hlen. unfold range. rewrite length_seqZ. lia.
  - wp_steps. split; [done|]. exists []. split; [done|]. cbn. lia.
Qed.

(** X8.  On a static page with a visible grid, a view succeeds and leaves
    the page as it is.  Without rendered data rows it reports row count 0
    and no data; otherwise the row count is the number of rendered rows and
    the preview holds the first min(rows, 10) of them.  In both cases there
    are at most six headers. *)
Theorem view_of_visible_grid self p :
  grid_visible self p ->
  exists headers data t,
    view_test_data self p =
      (Ok (if len (rendered_rows self p) =? 0 then ViewEmpty headers
           else ViewData (len (rendered_rows self p)) headers (len data) data),
       p, t) /\
    (length headers <= 6)%nat /\
    (rendered_rows self p <> [] ->
     length data = Nat.min (length (rendered_rows self p)) 10 /\
     Forall (fun row_data => (length row_data <= 6)%nat) data).
Proof.
  intros Hg.
  assert (wp (view_test_data self) p
            (fun r p' _ =>
               p' = p /\
               exists headers data,
                 r = Ok (if len (rendered_rows self p) =? 0 then ViewEmpty headers
                         else ViewData (len (rendered_rows self p)) headers
                                (len data) data) /\
                 (length headers <= 6)%nat /\
                 (rendered_rows self p <> [] ->
                  length data = Nat.min (length (rendered_rows self p)) 10 /\
                  Forall (fun row_data => (length row_data <= 6)%nat) data)))
    as Hwp.
  { unfold view_test_data. wp_steps.
    eapply wp_mono; [by apply get_grid_info_static|].
    intros r p1 t1 (-> & headers & -> & Hh).
    destruct (Z.eqb_spec (len (rendered_rows self p)) 0) as [Hz|Hnz].
    - wp_steps. split; [done|]. exists headers, [].
      split; [done|]. split; [done|].
      intros Hrows. by apply len_nil_iff in Hz.
    - wp_step.
      eapply wp_mono.
      { apply (for_each_static (fun row_data => (length row_data <= 6)%nat)).
        intros i acc. wp_step. wp_step. apply wp_static_count.
        cbv beta iota. wp_step.
        - eapply wp_mono.
          { apply (for_each_static (fun _ => True)).
            intros j row_data. wp_step. wp_step. apply wp_static_text_content.
            intros [[[|c s]|]|e]; wp_steps; eauto. }
          intros r p2 t2 (-> & cells & -> & Hlen & _). wp_steps.
          split; [done|]. eexists. split; [done|]. cbn [app].
          rewrite Hlen. unfold range. rewrite length_seqZ. lia. }
      intros r p2 t2 (-> & rows & -> & Hlen & Hrows). wp_steps.
      split; [done|]. exists headers, rows. cbn [app].
      split; [done|]. split; [done|]. intros _. split; [|done].
      rewrite Hlen. unfold range. rewrite length_seqZ. unfold len. lia. }
  unfold wp in Hwp.
  destruct (view_test_data self p) as [[r p'] t].
  destruct Hwp as (-> & headers & data & -> & Hh & Hd).
  by exists headers, data, t.
Qed.

(** X9.  The button search takes the first candidate selector, in list
    order, that matches an element inside the grid container, and returns
    the first such element; candidates after it are not tried, and without
    a match the result is [None].  The search logs nothing. *)
Theorem probe_buttons_takes_first_match self button_selectors p :
  probe_buttons self button_selectors p =
    (Ok (match List.find
                 (fun selector =>
                    len (resolve p (sub_locator (grid_container self) selector)) >? 0)
                 button_selectors with
         | Some selector => Some (first (sub_locator (grid_container self) selector))
         | None => None
         end), p, []).
Proof.
  induction button_selectors as [|selector rest IH]; [done|].
  cbn [probe_buttons List.find]. unfold bind, call.
  cbn [count static_driver].
  destruct (len (resolve p (sub_locator (grid_container self) selector)) >? 0).
  - done.
  - by rewrite IH.
Qed.

End ViewOnStaticPage.

(** X8 on a grid of two rows. *)
Lemma view_of_visible_grid_witness :
  grid_visible default_automation two_rows /\
  exists headers data t,
    view_test_data default_automation two_rows =
      (Ok (ViewData 2 headers (len data) data), two_rows, t) /\
    (length headers <= 6)%nat /\ length data = 2%nat.
Proof.
  assert (grid_visible default_automation two_rows) as Hg
    by (eexists; vm_compute; reflexivity).
  split; [exact Hg|].
  destruct (view_of_visible_grid default_automation two_rows Hg)
    as (headers & data & t & Hrun & Hh & Hd).
  exists headers, data, t. split; [exact Hrun|]. split; [exact Hh|].
  destruct Hd as [Hlen _]; [discriminate|exact Hlen].
Defined.

(** X2 on a page whose grid container is hidden: the wait times out and a
    create returns [False] at once. *)
Lemma grid_not_ready_witness :
  wait_for (grid_container default_automation) "visible"
    (Config.element_timeout (config default_automation)) hidden_grid =
    (Raise (PlaywrightTimeoutError "Timeout exceeded"), hidden_grid) /\
  add_new_test_data default_automation sample_data hidden_grid =
    (Ok false, hidden_grid,
     [EvLog INFO MsgAddStart; EvLog INFO MsgGridWaiting;
      EvLog ERROR (MsgGridWaitFailed (PlaywrightTimeoutError "Timeout exceeded"))]).
Proof.
  assert (wait_for (grid_container default_automation) "visible"
            (Config.element_timeout (config default_automation)) hidden_grid =
          (Raise (PlaywrightTimeoutError "Timeout exceeded"), hidden_grid))
    as Hwait by (vm_compute; reflexivity).
  split; [exact Hwait|].
  destruct (grid_not_ready_aborts default_automation hidden_grid _ _ Hwait)
    as (_ & Hadd & _).
  apply Hadd.
Defined.

(** * Properties of the record validation *)

Section DropWhile.

Context {A : Type} (f : A -> bool).

Lemma drop_while_idem (l : list A) :
  drop_while f (drop_while f l) = drop_while f l.
Proof.
  induction l as [|x l IH]; [done|].
  cbn. destruct (f x) eqn:E; [done|]. cbn. by rewrite E.
Qed.

(** A list that ends in an element on which [f] fails keeps it. *)
Lemma drop_while_snoc (l : list A) (x : A) :
  f x = false -> exists l', drop_while f (l ++ [x]) = l' ++ [x].
Proof.
  intros Hx. induction l as [|y l IH]; cbn.
  - rewrite Hx. by exists [].
  - destruct (f y); [done|]. by exists (y :: l).
Qed.

(** What [drop_while] returns does not start with an element on which [f]
    holds. *)
Lemma drop_while_head (l : list A) :
  drop_while f l = [] \/
  exists x l', drop_while f l = x :: l' /\ f x = false.
Proof.
  induction l as [|y l IH]; cbn; [by left|].
  destruct (f y) eqn:E; [done|]. right. eauto.
Qed.

Lemma drop_while_fixed (x : A) (l : list A) :
  f x = false -> drop_while f (x :: l) = x :: l.
Proof. intros Hx. cbn. by rewrite Hx. Qed.

(** What [trim] returns neither starts nor ends with an element on which
    [f] holds, so trimming it again changes nothing. *)
Lemma trim_idem (l : list A) : trim f (trim f l) = trim f l.
Proof.
  unfold trim.
  destruct (drop_while_head l) as [Hnil | (x & l' & Hl & Hx)].
  { rewrite Hnil. done. }
  rewrite Hl. cbn [rev].
  destruct (drop_while_snoc (rev l') x Hx) as [l'' Hsnoc].
  rewrite Hsnoc, rev_app_distr. cbn [rev app].
  rewrite drop_while_fixed by done.
  cbn [rev]. rewrite rev_involutive, <- Hsnoc.
  by rewrite drop_while_idem, Hsnoc, rev_app_distr.
Qed.

Lemma drop_while_all (l : list A) :
  Forall (fun x => f x = true) l -> drop_while f l = [].
Proof. induction 1 as [|x l Hx _ IH]; [done|]. cbn. by rewrite Hx. Qed.

Lemma drop_while_split (l : list A) : exists l0, l = l0 ++ drop_while f l.
Proof.
  induction l as [|x l [l0 IH]]; [by exists []|].
  cbn. destruct (f x); [|by exists []].
  exists (x :: l0). cbn. by rewrite <- IH.
Qed.

(** [trim] returns a segment of the list. *)
Lemma trim_split (l : list A) : exists l0 l1, l = l0 ++ trim f l ++ l1.
Proof.
  destruct (drop_while_split l) as [l0 H0].
  destruct (drop_while_split (rev (drop_while f l))) as [l1 H1].
  exists l0, (rev l1). unfold trim.
  by rewrite <- rev_app_distr, <- H1, rev_involutive.
Qed.

Lemma trim_Forall (P : A -> Prop) (l : list A) :
  Forall P l -> Forall P (trim f l).
Proof.
  intros Hl. destruct (trim_split l) as (l0 & l1 & Heq).
  rewrite Heq in Hl. apply Forall_app in Hl as [_ Hl].
  by apply Forall_app in Hl as [Hl _].
Qed.

Lemma drop_while_ext (g : A -> bool) (l : list A) :
  (forall x, f x = g x) -> drop_while f l = drop_while g l.
Proof.
  intros Hfg. induction l as [|x l IH]; [done|].
  cbn. rewrite <- Hfg. by destruct (f x).
Qed.

End DropWhile.

Section Strings.

Lemma drop_while_map {A B} (f : B -> bool) (g : A -> B) (l : list A) :
  drop_while f (map g l) = map g (drop_while (fun x => f (g x)) l).
Proof.
  induction l as [|x l IH]; [done|].
  cbn. by destruct (f (g x)).
Qed.

Lemma trim_map {A B} (f : B -> bool) (g : A -> B) (l : list A) :
  trim f (map g l) = map g (trim (fun x => f (g x)) l).
Proof.
  unfold trim.
  by rewrite drop_while_map, <- map_rev, drop_while_map, map_rev.
Qed.

Lemma trim_ext {A} (f g : A -> bool) (l : list A) :
  (forall x, f x = g x) -> trim f l = trim g l.
Proof.
  intros Hfg. unfold trim.
  by rewrite (drop_while_ext f g l Hfg), (drop_while_ext f g _ Hfg).
Qed.

Lemma string_eq_by_list (s1 s2 : string) :
  list_ascii_of_string s1 = list_ascii_of_string s2 -> s1 = s2.
Proof.
  intros Heq.
  rewrite <- (string_of_list_ascii_of_string s1),
          <- (string_of_list_ascii_of_string s2).
  by rewrite Heq.
Qed.

(** *** The split into characters *)

Lemma chars_head (c : ascii) (l : list ascii) :
  exists rest others, chars (c :: l) = (c :: rest) :: others.
Proof.
  cbn [chars]. destruct (chars l) as [|[|c' ch] others]; [eauto..|].
  destruct (is_continuation c'); eauto.
Qed.

Lemma chars_well_split (l : list ascii) : well_split (chars l).
Proof.
  induction l as [|c l IH]; [done|].
  cbn [chars]. destruct (chars l) as [|[|c' ch] others].
  - cbn. split; constructor.
  - by destruct IH as [[] _].
  - destruct IH as [Hch Hothers]. cbn in Hch.
    destruct (is_continuation c') eqn:E; cbn.
    + split; [by constructor | done].
    + split; [constructor|]. by constructor.
Qed.

Lemma whole_chars_well_split (l : list (list ascii)) :
  Forall whole_char l -> well_split l.
Proof.
  destruct 1 as [|ch l Hch Hl]; [done|].
  split; [|done]. destruct ch; [done|]. by destruct Hch.
Qed.

Lemma well_split_app (l1 l2 : list (list ascii)) :
  well_split (l1 ++ l2) -> well_split l1 /\ well_split l2.
Proof.
  destruct l1 as [|ch l1]; [done|].
  intros [Hch Hrest]. apply Forall_app in Hrest as [H1 H2].
  split; [done|]. by apply whole_chars_well_split.
Qed.

Lemma well_split_trim (f : list ascii -> bool) (l : list (list ascii)) :
  well_split l -> well_split (trim f l).
Proof.
  intros Hl. destruct (trim_split f l) as (l0 & l1 & Heq).
  rewrite Heq in Hl. apply well_split_app in Hl as [_ Hl].
  by apply well_split_app in Hl as [Hl _].
Qed.

(** A character in front of bytes that start a character is split off as
    it is. *)
Lemma chars_one_char (c : ascii) (rest l : list ascii) :
  Forall (fun c => is_continuation c = true) rest ->
  (l = [] \/ exists x l', l = x :: l' /\ is_continuation x = false) ->
  chars ((c :: rest) ++ l) = (c :: rest) :: chars l.
Proof.
  intros Hrest Hl. revert c.
  induction Hrest as [|k rest Hk _ IH]; intros c.
  - cbn [app chars].
    destruct Hl as [->|(x & l' & -> & Hx)]; [done|].
    destruct (chars_head x l') as (r & others & ->). by rewrite Hx.
  - change ((c :: k :: rest) ++ l) with (c :: ((k :: rest) ++ l)).
    cbn [chars]. rewrite IH. by rewrite Hk.
Qed.

Lemma chars_concat_whole (l : list (list ascii)) :
  Forall whole_char l ->
  chars (concat l) = l /\
  (concat l = [] \/
   exists x l', concat l = x :: l' /\ is_continuation x = false).
Proof.
  induction 1 as [|ch l Hch _ [IH Hstart]]; [by split; [|left]|].
  destruct ch as [|c rest]; [done|]. destruct Hch as [Hc Hrest].
  cbn [concat]. split.
  - rewrite chars_one_char by done. by rewrite IH.
  - right. by exists c, (rest ++ concat l).
Qed.

(** Joining the characters of a split and splitting again gives the same
    characters. *)
Lemma chars_concat (l : list (list ascii)) :
  well_split l -> chars (concat l) = l.
Proof.
  destruct l as [|ch l]; [done|]. intros [Hch Hl].
  destruct ch as [|c rest]; [done|].
  destruct (chars_concat_whole l Hl) as [IH Hstart].
  cbn [concat]. rewrite chars_one_char by done. by rewrite IH.
Qed.

(** *** [strip] *)

Lemma strip_idem (s : string) : strip (strip s) = strip s.
Proof.
  unfold strip. rewrite list_ascii_of_string_of_list_ascii.
  rewrite chars_concat by apply well_split_trim, chars_well_split.
  by rewrite trim_idem.
Qed.

Lemma strip_blank (s : string) : blank s -> strip s = EmptyString.
Proof.
  intros Hs. unfold strip, trim.
  by rewrite (drop_while_all _ _ Hs).
Qed.

(** *** ASCII strings *)

Lemma is_ascii_not_continuation (c : ascii) :
  is_ascii c = true -> is_continuation c = false.
Proof. by destruct c as [[] [] [] [] [] [] [] []]. Qed.

Lemma to_upper_is_ascii (c : ascii) :
  is_ascii c = true -> is_ascii (to_upper_ascii c) = true.
Proof. by destruct c as [[] [] [] [] [] [] [] []]. Qed.

Lemma to_upper_idem (c : ascii) :
  to_upper_ascii (to_upper_ascii c) = to_upper_ascii c.
Proof. by destruct c as [[] [] [] [] [] [] [] []]. Qed.

(** Upper-casing neither makes nor removes white space. *)
Lemma is_space_to_upper (c : ascii) :
  is_space_char [to_upper_ascii c] = is_space_char [c].
Proof. destruct c as [[] [] [] [] [] [] [] []]; vm_compute; reflexivity. Qed.

(** The characters of an ASCII string are its bytes. *)
Lemma chars_ascii (l : list ascii) :
  Forall (fun c => is_ascii c = true) l -> chars l = map (fun c => [c]) l.
Proof.
  induction 1 as [|c l Hc Hl IH]; [done|].
  cbn [chars map]. rewrite IH.
  destruct Hl as [|c' l' Hc' _]; [done|].
  cbn [map]. by rewrite (is_ascii_not_continuation c' Hc').
Qed.

Lemma concat_singletons {A} (l : list A) : concat (map (fun c => [c]) l) = l.
Proof. induction l as [|x l IH]; [done|]. cbn. by rewrite IH. Qed.

Lemma strip_ascii (s : string) :
  ascii_only s ->
  list_ascii_of_string (strip s) =
    trim (fun c => is_space_char [c]) (list_ascii_of_string s).
Proof.
  intros Hs. unfold strip.
  rewrite list_ascii_of_string_of_list_ascii, (chars_ascii _ Hs).
  by rewrite trim_map, concat_singletons.
Qed.

Lemma upper_ascii upper_full (s : string) :
  ascii_only s ->
  list_ascii_of_string (upper upper_full s) =
    map to_upper_ascii (list_ascii_of_string s).
Proof.
  intros Hs. unfold upper.
  rewrite list_ascii_of_string_of_list_ascii, (chars_ascii _ Hs), map_map.
  induction Hs as [|c l Hc _ IH]; [done|].
  cbn [map concat]. rewrite IH. cbn [upper_char]. by rewrite Hc.
Qed.

Lemma strip_ascii_only (s : string) : ascii_only s -> ascii_only (strip s).
Proof.
  intros Hs. unfold ascii_only. rewrite (strip_ascii s Hs).
  by apply trim_Forall.
Qed.

Lemma upper_ascii_only upper_full (s : string) :
  ascii_only s -> ascii_only (upper upper_full s).
Proof.
  intros Hs. unfold ascii_only. rewrite (upper_ascii _ s Hs).
  apply Forall_map. eapply Forall_impl; [exact Hs|].
  intros c Hc. by apply to_upper_is_ascii.
Qed.

(** An ASCII string that was stripped and upper-cased is left as it is by
    both. *)
Lemma upper_strip_fixed upper_full (s : string) :
  ascii_only s ->
  let a := upper upper_full (strip s) in
  strip a = a /\ upper upper_full a = a.
Proof.
  intros Hs a.
  pose proof (strip_ascii_only s Hs) as Hstrip.
  pose proof (upper_ascii_only upper_full _ Hstrip) as Ha.
  split; apply string_eq_by_list.
  - rewrite (strip_ascii a Ha). unfold a.
    rewrite (upper_ascii _ _ Hstrip), (strip_ascii s Hs).
    rewrite trim_map.
    rewrite (trim_ext _ (fun c => is_space_char [c]) _ is_space_to_upper).
    by rewrite trim_idem.
  - rewrite (upper_ascii _ a Ha). unfold a.
    rewrite (upper_ascii _ _ Hstrip), map_map.
    apply map_ext. intros c. apply to_upper_idem.
Qed.

Lemma too_short_spec (v : string) (n : Z) :
  0 < n -> too_short v n = false <-> n <= py_len v.
Proof.
  intros Hn. destruct v as [|c v]; cbn [too_short].
  - cbn. split; [done | lia].
  - rewrite Z.ltb_ge. done.
Qed.

End Strings.

Section RecordValidation.

Variable upper_full : list ascii -> list ascii.

(** X11.  The minimum length of 料號 is checked before the value is
    stripped: a value of three or more characters that are all white space,
    of ASCII or not, passes the validator and is stored as the empty
    string. *)
Theorem blank_part_number_is_stored_empty (v : string) :
  3 <= py_len v -> blank v ->
  validate_part_number upper_full v = Valid EmptyString.
Proof.
  intros Hlen Hblank. unfold validate_part_number.
  apply too_short_spec in Hlen; [|lia]. rewrite Hlen.
  by rewrite (strip_blank v Hblank).
Qed.

(** A validator that checks a minimum length and then stores [normal v]
    settles the values that [normal] leaves as they are. *)
Lemma settled_when_fixed (normal : string -> string) (msg : string)
    (min_length : Z) (a : string) :
  0 < min_length -> normal a = a ->
  settled (fun v => if too_short v min_length then Invalid msg
                    else Valid (normal v)) min_length a.
Proof.
  intros Hmin Hfix. unfold settled. rewrite Hfix.
  pose proof (too_short_spec a min_length Hmin) as Hspec.
  destruct (too_short a min_length).
  - split; [|done]. split; [done|]. intros Hlen. by apply Hspec in Hlen.
  - split; [|by intros a' [= <-]]. split; [|done]. intros _. by apply Hspec.
Qed.

(** X12.  What a validator has stored is in its normal form, so that a
    record can be validated again, as when it is rebuilt from its dict,
    without changing: the stored 版本 and 描述 are stripped, the stored 站位
    is an allowed one, and the stored 料號 of an ASCII input is stripped and
    in upper case.  A second validation stores the same value or rejects it,
    and it rejects it exactly when what was stored is shorter than the
    minimum length, which the first validation checked before it
    stripped. *)
Theorem stored_values_are_settled (v a : string) :
  (validate_version v = Valid a -> settled validate_version 5 a) /\
  (validate_description v = Valid a -> settled validate_description 3 a) /\
  (validate_station v = Valid a -> validate_station a = Valid a) /\
  (ascii_only v -> validate_part_number upper_full v = Valid a ->
   settled (validate_part_number upper_full) 3 a).
Proof.
  split; [|split; [|split]].
  - unfold validate_version at 1. destruct (too_short v 5); [done|].
    intros [= <-]. apply settled_when_fixed; [lia | apply strip_idem].
  - unfold validate_description at 1. destruct (too_short v 3); [done|].
    intros [= <-]. apply settled_when_fixed; [lia | apply strip_idem].
  - unfold validate_station. case_bool_decide as Hv; [|done].
    intros [= <-]. by rewrite bool_decide_true.
  - intros Hv. unfold validate_part_number at 1.
    destruct (too_short v 3); [done|]. intros [= <-].
    destruct (upper_strip_fixed upper_full v Hv) as [Hstrip Hupper].
    apply (settled_when_fixed (fun v => upper upper_full (strip v))); [lia|].
    cbv beta. by rewrite Hstrip, Hupper.
Qed.

End RecordValidation.

Section Similarity.

Lemma bool_decide_eq_sym (a b : string) :
  bool_decide (a = b) = bool_decide (b = a).
Proof. apply bool_decide_ext. split; congruence. Qed.

(** X13.  The similarity of two records does not depend on their order; it
    is 1.0 when 料號 and 站位 both agree, whatever the other fields hold (so
    a record is fully similar to itself), and at most 0.8 otherwise. *)
Theorem similarity_is_symmetric (data1 data2 : TestData) :
  _calculate_similarity data1 data2 = _calculate_similarity data2 data1 /\
  _calculate_similarity data1 data1 = 1%float /\
  (料號 data1 = 料號 data2 /\ 站位 data1 = 站位 data2 ->
   _calculate_similarity data1 data2 = 1%float) /\
  (~ (料號 data1 = 料號 data2 /\ 站位 data1 = 站位 data2) ->
   float_ge threshold (_calculate_similarity data1 data2) = true).
Proof.
  split; [|split; [|split]].
  - unfold _calculate_similarity.
    rewrite (bool_decide_eq_sym (料號 data2)), (bool_decide_eq_sym (站位 data2)),
      (bool_decide_eq_sym (版本 data2)), (bool_decide_eq_sym (描述 data2)),
      (bool_decide_eq_sym (MFGID群組 data2)).
    done.
  - unfold _calculate_similarity. by rewrite !bool_decide_true.
  - intros [Hp Hs]. unfold _calculate_similarity.
    by rewrite (bool_decide_true _ Hp), (bool_decide_true _ Hs).
  - intros Hne. unfold _calculate_similarity.
    destruct (bool_decide (料號 data1 = 料號 data2)) eqn:Hp;
      destruct (bool_decide (站位 data1 = 站位 data2)) eqn:Hs.
    { apply bool_decide_eq_true in Hp, Hs. tauto. }
    all: cbn [andb];
      generalize (bool_decide (版本 data1 = 版本 data2)),
                 (bool_decide (描述 data1 = 描述 data2)),
                 (bool_decide (MFGID群組 data1 = MFGID群組 data2));
      intros [] [] []; vm_compute; reflexivity.
Qed.

Lemma keeps_iff_is_duplicate (target_data data : TestData) :
  float_ge (_calculate_similarity target_data data) threshold =
    is_duplicate target_data data.
Proof.
  unfold _calculate_similarity, is_duplicate, differing_fields.
  generalize (bool_decide (料號 target_data = 料號 data)),
             (bool_decide (站位 target_data = 站位 data)),
             (bool_decide (版本 target_data = 版本 data)),
             (bool_decide (描述 target_data = 描述 data)),
             (bool_decide (MFGID群組 target_data = MFGID群組 data)).
  intros [] [] [] [] []; vm_compute; reflexivity.
Qed.

(** X14.  With the default threshold of 0.8, [find_duplicates] returns, in
    the order of the data set, exactly the records that agree with the
    target on both 料號 and 站位, or that differ from it in at most one of
    the five fields. *)
Theorem find_duplicates_keeps_near_copies (current_dataset : list TestData)
    (target_data : TestData) :
  find_duplicates current_dataset target_data threshold =
    List.filter (is_duplicate target_data) current_dataset.
Proof.
  induction current_dataset as [|data rest IH]; [done|].
  cbn [find_duplicates List.filter].
  rewrite keeps_iff_is_duplicate, IH. done.
Qed.

End Similarity.

(** X11 at a part number of three ideographic spaces (U+3000). *)
Lemma blank_part_number_witness :
  validate_part_number (fun ch => ch) "　　　" = Valid EmptyString.
Proof.
  apply (blank_part_number_is_stored_empty (fun ch => ch) "　　　").
  - vm_compute. discriminate.
  - unfold blank.
    replace (chars (list_ascii_of_string "　　　"))
      with [list_ascii_of_string "　"; list_ascii_of_string "　";
            list_ascii_of_string "　"] by (vm_compute; reflexivity).
    repeat constructor.
Defined.

(** X12 at a 料號 given padded and in lower case: it is stored normalised
    and validates again to itself. *)
Lemma stored_values_witness :
  validate_part_number (fun ch => ch) "  ab-1234 " = Valid "AB-1234" /\
  validate_part_number (fun ch => ch) "AB-1234" = Valid "AB-1234".
Proof.
  assert (validate_part_number (fun ch => ch) "  ab-1234 " = Valid "AB-1234")
    as Hstored by (vm_compute; reflexivity).
  split; [exact Hstored|].
  destruct (stored_values_are_settled (fun ch => ch) "  ab-1234 " "AB-1234")
    as (_ & _ & _ & Hpart).
  apply Hpart; [|exact Hstored|].
  - unfold ascii_only. vm_compute. repeat constructor.
  - vm_compute. discriminate.
Defined.

(** A 料號 given as "  a" passes the validator, is stored as "A", and does
    not pass again; a 料號 given as "straße", which is not of ASCII only, is
    stored as the upper-case mapping gives it. *)
Example short_stored_part_number_example (upper_full : list ascii -> list ascii) :
  validate_part_number upper_full "  a" = Valid "A" /\
  validate_part_number upper_full "A" = Invalid "料號不能為空且至少3個字符" /\
  (upper_full (list_ascii_of_string "ß") = list_ascii_of_string "SS" ->
   validate_part_number upper_full "straße" = Valid "STRASSE").
Proof.
  split; [vm_compute; reflexivity|]. split; [vm_compute; reflexivity|].
  intros Hfull. unfold validate_part_number.
  replace (too_short "straße" 3) with false by (vm_compute; reflexivity).
  replace (strip "straße") with "straße" by (vm_compute; reflexivity).
  unfold upper.
  replace (chars (list_ascii_of_string "straße"))
    with [list_ascii_of_string "s"; list_ascii_of_string "t";
          list_ascii_of_string "r"; list_ascii_of_string "a";
          list_ascii_of_string "ß"; list_ascii_of_string "e"]
    by (vm_compute; reflexivity).
  cbn [map].
  assert (upper_char upper_full (list_ascii_of_string "ß") =
          list_ascii_of_string "SS") as -> by exact Hfull.
  vm_compute. reflexivity.
Qed.

(** * Properties of the data validation *)

Section ValidationInvariants.

Variable re_match : string -> string -> ValidationExn + bool.
Variable validation_rules : gmap string Rule.
Variable current_dataset : list TestData.

Implicit Types (data : TestData) (r : ValidationResult).

Lemma check_part_number_cases data r :
  (exists e, check_part_number re_match validation_rules data r = inl e) \/
  check_part_number re_match validation_rules data r = inr r \/
  (exists m, check_part_number re_match validation_rules data r
             = inr (add_error m r)) \/
  check_part_number re_match validation_rules data r = inr (add_score 15 r).
Proof.
  unfold check_part_number, description_of.
  destruct (validation_rules !! "料號") as [[[pattern|] ? ? [d|]]|]; cbn; eauto;
    destruct (re_match pattern (料號 data)) as [e|[]]; eauto 6.
Qed.

Lemma check_station_cases data r :
  check_station validation_rules data r = inr r \/
  (exists m, check_station validation_rules data r = inr (add_error m r)) \/
  check_station validation_rules data r = inr (add_score 15 r).
Proof.
  unfold check_station.
  destruct (validation_rules !! "站位") as [[? [allowed|] ? ?]|]; cbn; eauto.
  case_bool_decide; eauto.
Qed.

Lemma check_version_cases data r :
  (exists e, check_version re_match validation_rules data r = inl e) \/
  check_version re_match validation_rules data r = inr r \/
  (exists m, check_version re_match validation_rules data r
             = inr (add_warning m r)) \/
  check_version re_match validation_rules data r = inr (add_score 15 r).
Proof.
  unfold check_version, description_of.
  destruct (validation_rules !! "版本") as [[[pattern|] ? ? [d|]]|]; cbn; eauto;
    destruct (re_match pattern (版本 data)) as [e|[]]; eauto 6.
Qed.

Lemma check_description_cases data r :
  check_description validation_rules data r = inr r \/
  (exists m, check_description validation_rules data r = inr (add_warning m r)) \/
  check_description validation_rules data r = inr (add_score 15 r).
Proof.
  unfold check_description.
  destruct (validation_rules !! "描述") as [[? ? [min_length|] ?]|]; cbn; eauto.
  destruct (py_len (描述 data) <? min_length); eauto.
Qed.

Lemma check_duplicates_cases data r :
  check_duplicates current_dataset data r = inr r \/
  (exists m, check_duplicates current_dataset data r = inr (add_warning m r)).
Proof.
  unfold check_duplicates.
  destruct (find_duplicates current_dataset data threshold); eauto.
Qed.

(** X15.  Whatever the rules, the data set and the regular expression
    engine do, the result of [validate_data] is valid exactly when it lists
    no error, its score is one of 0, 40, 55, 70, 85 and 100, and it carries
    at most one suggestion. *)
Theorem validation_result_is_consistent data :
  let result := validate_data re_match validation_rules current_dataset data in
  (is_valid result = true <-> errors result = []) /\
  (score result = 0 \/ score result = 40 \/ score result = 55 \/
   score result = 70 \/ score result = 85 \/ score result = 100)%float /\
  (length (suggestions result) <= 1)%nat.
Proof.
  unfold validate_data. cbn [run_steps].
  destruct (check_part_number_cases data
              (add_score 40 (mkValidationResult true [] [] [] 0)))
    as [ [e ->] | [ -> | [ [m1 ->] | -> ] ] ]; cbv beta iota;
    [vm_compute; split; [split; done | auto 10]|..].
  all: match goal with
       | |- context [check_station _ _ ?r] =>
           destruct (check_station_cases data r) as [ -> | [ [m2 ->] | -> ] ]
       end; cbv beta iota.
  all: match goal with
       | |- context [check_version _ _ _ ?r] =>
           destruct (check_version_cases data r) as [ [e ->] | [ -> | [ [m3 ->] | -> ] ] ]
       end; cbv beta iota;
       [vm_compute; split; [split; done | auto 10]|..].
  all: match goal with
       | |- context [check_description _ _ ?r] =>
           destruct (check_description_cases data r) as [ -> | [ [m4 ->] | -> ] ]
       end; cbv beta iota.
  all: match goal with
       | |- context [check_duplicates _ _ ?r] =>
           destruct (check_duplicates_cases data r) as [ -> | [m5 ->] ]
       end; cbv beta iota.
  all: vm_compute; split; [split; done | auto 10].
Qed.

End ValidationInvariants.

Section DefaultRules.

Variable re_match : string -> string -> ValidationExn + bool.
Variable current_dataset : list TestData.

Implicit Types (data : TestData) (r : ValidationResult).

Lemma default_rules_lookup :
  default_validation_rules !! "料號" =
    Some (mkRule (Some "^[A-Z0-9]{10,}$") None None
            (Some "料號必須為10位以上的大寫字母和數字組合")) /\
  default_validation_rules !! "站位" =
    Some (mkRule None (Some ["B/I"; "FT"; "PT"; "SHIP"]) None
            (Some "站位必須為預定義值之一")) /\
  default_validation_rules !! "版本" =
    Some (mkRule (Some "^V\d+\.\d+\.\d+\.\d+_\d+\.\d+\.\d+\.\d+E\d+\.\d+.*$")
            None None (Some "版本號必須符合指定格式")) /\
  default_validation_rules !! "描述" =
    Some (mkRule None None (Some 5) (Some "描述不能為空且至少5個字符")).
Proof. repeat split; vm_compute; reflexivity. Qed.

(** The default rules, step by step. *)
Lemma default_steps data r :
  check_part_number re_match default_validation_rules data r =
    match re_match "^[A-Z0-9]{10,}$" (料號 data) with
    | inl e => inl e
    | inr false =>
        inr (add_error
               (VMsgPartNumberFormat "料號必須為10位以上的大寫字母和數字組合") r)
    | inr true => inr (add_score 15 r)
    end /\
  check_station default_validation_rules data r =
    (if bool_decide (站位 data ∈ ["B/I"; "FT"; "PT"; "SHIP"])
     then inr (add_score 15 r)
     else inr (add_error (VMsgStationNotAllowed ["B/I"; "FT"; "PT"; "SHIP"]) r)) /\
  (exists outcome : ValidationExn + (ValidationResult -> ValidationResult),
     (forall r', check_version re_match default_validation_rules data r' =
                 match outcome with inl e => inl e | inr f => inr (f r') end) /\
     match outcome with
     | inl _ => True
     | inr f => f = add_score 15 \/ exists m, f = add_warning m
     end) /\
  (check_description default_validation_rules data r = inr (add_score 15 r) \/
   exists m, check_description default_validation_rules data r
             = inr (add_warning m r)).
Proof.
  destruct default_rules_lookup as (H1 & H2 & H3 & H4).
  unfold check_part_number, check_station, check_version, check_description,
    description_of.
  rewrite H1, H2, H3, H4. cbn [rule_pattern rule_allowed_values rule_min_length
                                 rule_description].
  split; [by destruct (re_match _ (料號 data)) as [|[]]|]. split; [done|]. split.
  - destruct (re_match _ (版本 data)) as [e|[]].
    + by exists (inl e).
    + exists (inr (add_score 15)). eauto.
    + eexists (inr (add_warning _)). eauto.
  - destruct (py_len (描述 data) <? 5); eauto.
Qed.

(** X16.  Under the default rules a record that [validate_data] finds valid
    scores at least 70 and gets the suggestion "excellent" or "good", never
    the advice to check the data. *)
Theorem valid_record_scores_at_least_70 data :
  let result :=
    validate_data re_match default_validation_rules current_dataset data in
  is_valid result = true ->
  float_ge (score result) 70 = true /\
  (suggestions result = [VMsgQualityExcellent] \/
   suggestions result = [VMsgQualityGood]).
Proof.
  unfold validate_data. cbn [run_steps].
  destruct (default_steps data (add_score 40 (mkValidationResult true [] [] [] 0)))
    as (-> & _ & _ & _).
  destruct (re_match _ (料號 data)) as [e|[]]; cbv beta iota; [done|..].
  all: match goal with
       | |- context [check_station _ _ ?r] =>
           destruct (default_steps data r) as (_ & -> & _ & _)
       end; case_bool_decide; cbv beta iota.
  all: match goal with
       | |- context [check_version _ _ _ ?r] =>
           destruct (check_version_cases re_match default_validation_rules data r)
             as [ [e ->] | [ -> | [ [m3 ->] | -> ] ] ]
       end; cbv beta iota; [done|..].
  all: match goal with
       | |- context [check_description _ _ ?r] =>
           destruct (check_description_cases default_validation_rules data r)
             as [ -> | [ [m4 ->] | -> ] ]
       end; cbv beta iota.
  all: match goal with
       | |- context [check_duplicates _ _ ?r] =>
           destruct (check_duplicates_cases current_dataset data r)
             as [ -> | [m5 ->] ]
       end; cbv beta iota.
  all: vm_compute; first [done | intros _; split; [reflexivity | auto]].
Qed.

(** X17.  The station "BI" passes the validator of [TestData] but is not
    among the allowed values of the default rules: whatever its other
    fields hold, a record whose 站位 is "BI" is reported invalid by
    [validate_data]. *)
Theorem station_bi_is_built_but_invalid data :
  站位 data = "BI" ->
  validate_station (站位 data) = Valid "BI" /\
  is_valid (validate_data re_match default_validation_rules current_dataset data)
    = false.
Proof.
  intros Hbi. split; [by rewrite Hbi|].
  assert (bool_decide ("BI" ∈ ["B/I"; "FT"; "PT"; "SHIP"]) = false) as Hnot
    by (vm_compute; reflexivity).
  unfold validate_data. cbn [run_steps].
  destruct (check_part_number_cases re_match default_validation_rules data
              (add_score 40 (mkValidationResult true [] [] [] 0)))
    as [ [e ->] | [ -> | [ [m1 ->] | -> ] ] ]; cbv beta iota; [done|..].
  all: match goal with
       | |- context [check_station _ _ ?r] =>
           destruct (default_steps data r) as (_ & -> & _ & _)
       end; rewrite Hbi, Hnot; cbv beta iota.
  all: match goal with
       | |- context [check_version _ _ _ ?r] =>
           destruct (check_version_cases re_match default_validation_rules data r)
             as [ [e ->] | [ -> | [ [m3 ->] | -> ] ] ]
       end; cbv beta iota; [done|..].
  all: match goal with
       | |- context [check_description _ _ ?r] =>
           destruct (check_description_cases default_validation_rules data r)
             as [ -> | [ [m4 ->] | -> ] ]
       end; cbv beta iota.
  all: match goal with
       | |- context [check_duplicates _ _ ?r] =>
           destruct (check_duplicates_cases current_dataset data r)
             as [ -> | [m5 ->] ]
       end; cbv beta iota.
  all: vm_compute; reflexivity.
Qed.

End DefaultRules.

(** X16 with an engine that matches everything, on the sample record. *)
Lemma valid_record_witness :
  is_valid (validate_data (fun _ _ => inr true) default_validation_rules []
              sample_data) = true /\
  float_ge (score (validate_data (fun _ _ => inr true) default_validation_rules []
                     sample_data)) 70 = true /\
  (suggestions (validate_data (fun _ _ => inr true) default_validation_rules []
                  sample_data) = [VMsgQualityExcellent] \/
   suggestions (validate_data (fun _ _ => inr true) default_validation_rules []
                  sample_data) = [VMsgQualityGood]).
Proof.
  assert (is_valid (validate_data (fun _ _ => inr true) default_validation_rules []
                      sample_data) = true) as Hvalid by (vm_compute; reflexivity).
  split; [exact Hvalid|].
  exact (valid_record_scores_at_least_70 (fun _ _ => inr true) [] sample_data Hvalid).
Defined.

(** X17 on a record of station "BI". *)
Lemma station_bi_witness :
  validate_station "BI" = Valid "BI" /\
  is_valid (validate_data (fun _ _ => inr true) default_validation_rules []
              (mkTestData "AB-1234" "BI" "V1.0.0" "sample" "DEFAULT")) = false.
Proof.
  exact (station_bi_is_built_but_invalid (fun _ _ => inr true) []
           (mkTestData "AB-1234" "BI" "V1.0.0" "sample" "DEFAULT") eq_refl).
Defined.

(** * Row references that resolve to nothing *)

(** Closes a goal that the field events of a concatenated output are
    none. *)
Ltac no_field_events :=
  rewrite ?field_events_app;
  repeat match goal with H : field_events _ = _ |- _ => rewrite H end;
  cbn [field_events is_field_event app];
  try done.

Section MissingRows.

Import StaticPage.

Implicit Types (self : MMT010Automation) (p : Page).

Lemma find_grid_row_beyond self p n :
  len (rendered_rows self p) < n ->
  exists t, find_grid_row self (RowInt n) p = (Ok None, p, t) /\
            field_events t = [] /\ delete_events t = [].
Proof.
  intros Hn.
  destruct (grid_visible_or_hidden self p) as [Hg|[e He]].
  - unfold find_grid_row, try_except. unfold bind at 1.
    rewrite (wait_for_grid_ready_visible _ _ Hg). cbn [negb].
    unfold bind, call, log, ret. cbn [count static_driver resolve].
    fold (rendered_rows self p).
    rewrite query_nth_beyond by lia. cbn. eauto.
  - unfold find_grid_row, try_except. unfold bind at 1.
    rewrite (wait_for_grid_ready_hidden _ _ _ He). cbn [negb].
    unfold ret. cbn. eauto.
Qed.

(** X18.  An edit or a delete addressed to an ordinal beyond the rendered
    rows returns [False], leaves the page as it is, attempts no cell edit
    and clicks no delete button; the only thing reported is that the row
    was not found. *)
Theorem edit_and_delete_beyond_rows self p n test_data :
  len (rendered_rows self p) < n ->
  (exists t,
     edit_test_data self (RowInt n) test_data p = (Ok false, p, t) /\
     fill_attempts t = [] /\
     last t = Some (EvLog ERROR (MsgRowNotFound (RowInt n)))) /\
  (exists t,
     delete_test_data self (RowInt n) p = (Ok false, p, t) /\
     delete_events t = [EvLog ERROR (MsgRowNotFound (RowInt n))]).
Proof.
  intros Hn.
  destruct (find_grid_row_beyond self p n Hn) as (t0 & Hfind & Hf & Hd).
  split.
  - unfold edit_test_data, try_except. unfold bind at 1, log at 1.
    unfold bind at 1. rewrite Hfind. unfold bind, log, ret.
    eexists. split; [done|]. split.
    + rewrite <- fill_attempts_field_events. cbn [app field_events is_field_event].
      rewrite field_events_app, Hf. done.
    + by rewrite app_nil_r, app_assoc, last_snoc.
  - unfold delete_test_data, try_except. unfold bind at 1, log at 1.
    unfold bind at 1. rewrite Hfind. unfold bind, log, ret.
    eexists. split; [done|].
    by rewrite !delete_events_app, Hd.
Qed.

Lemma wp_static_act_click l p (Q : Res unit -> Page -> list Event -> Prop) :
  (forall r, Q r p []) -> wp (call (click l)) p Q.
Proof.
  intros HQ. unfold wp, call. cbn [click static_driver]. unfold act.
  destruct (strict_target p l); apply HQ.
Qed.

Lemma probe_buttons_static self button_selectors p :
  wp (probe_buttons self button_selectors) p
    (fun r p' t => p' = p /\ is_ok r = true /\ t = []).
Proof.
  induction button_selectors as [|selector rest IH]; cbn [probe_buttons].
  - by wp_steps.
  - wp_step. apply wp_static_count. cbv beta iota.
    destruct (len (resolve p (sub_locator (grid_container self) selector)) >? 0).
    + by wp_steps.
    + eapply wp_mono; [apply IH|]. intros r p' t (-> & Hok & ->). done.
Qed.

(** X19.  On a page whose visible grid renders no data row and stays that
    way, a create returns [False] without attempting a cell edit, whether
    or not an add button was found and clicked, and it leaves the page as
    it is. *)
Theorem create_without_rows_fails self p test_data :
  grid_visible self p ->
  rendered_rows self p = [] ->
  exists t,
    add_new_test_data self test_data p = (Ok false, p, t) /\
    fill_attempts t = [] /\ decided t = false.
Proof.
  intros Hg Hrows.
  assert (wp (add_new_test_data self test_data) p
            (fun r p' t => p' = p /\ r = Ok false /\ field_events t = [])) as Hwp.
  { unfold add_new_test_data. wp_steps.
    apply wp_static_grid_ready; [done|]. cbn [negb].
    wp_step. eapply wp_mono; [apply probe_buttons_static|].
    intros [add_button|e] p1 t1 (-> & Hok & ->); [|done].
    wp_step.
    eapply (wp_mono _ _ (fun r p' t => p' = p /\ field_events t = [])).
    { destruct add_button as [b|]; [|by wp_steps].
      do 3 wp_step. apply wp_static_act_click. intros [[]|e]; by wp_steps. }
    intros [[]|e] p2 t2 (-> & Ht2).
    2: { wp_steps. split; [done|]. split; [done|]. no_field_events. }
    wp_step. apply wp_static_count. fold (rendered_rows self p).
    rewrite Hrows. cbn [len length Z.of_nat Z.gtb Z.compare].
    wp_steps. split; [done|]. split; [done|]. no_field_events. }
  unfold wp in Hwp.
  destruct (add_new_test_data self test_data p) as [[r p'] t].
  destruct Hwp as (-> & -> & Ht).
  destruct (stopped_output t Ht) as (Ha & _ & _ & Hd & _).
  by exists t.
Qed.

End MissingRows.

(** X18 at ordinal 3 on a grid of two rows. *)
Lemma edit_and_delete_beyond_rows_witness :
  len (rendered_rows default_automation two_rows) < 3 /\
  (exists t,
     edit_test_data default_automation (RowInt 3) sample_data two_rows
       = (Ok false, two_rows, t) /\
     fill_attempts t = [] /\
     last t = Some (EvLog ERROR (MsgRowNotFound (RowInt 3)))) /\
  (exists t,
     delete_test_data default_automation (RowInt 3) two_rows
       = (Ok false, two_rows, t) /\
     delete_events t = [EvLog ERROR (MsgRowNotFound (RowInt 3))]).
Proof.
  split; [reflexivity|].
  apply (edit_and_delete_beyond_rows default_automation two_rows 3 sample_data).
  reflexivity.
Defined.

(** X19 on a grid without rows. *)
Lemma create_without_rows_witness :
  grid_visible default_automation empty_grid /\
  rendered_rows default_automation empty_grid = [] /\
  exists t,
    add_new_test_data default_automation sample_data empty_grid
      = (Ok false, empty_grid, t) /\
    fill_attempts t = [] /\ decided t = false.
Proof.
  assert (grid_visible default_automation empty_grid) as Hg
    by (eexists; vm_compute; reflexivity).
  assert (rendered_rows default_automation empty_grid = []) as Hrows
    by (vm_compute; reflexivity).
  split; [exact Hg|]. split; [exact Hrows|].
  exact (create_without_rows_fails default_automation empty_grid sample_data
           Hg Hrows).
Defined.

(** * Creates that reach the field loop *)

Section CreateOnStaticPage.

Import StaticPage.

Implicit Types (self : MMT010Automation) (p : Page).






End CreateOnStaticPage.

